(** * RAG ingestion and retrieval pipeline of [app.py]

    A shallow embedding of the Streamlit chat application: the Azure AI
    Search client ([clear_azure_search_index],
    [index_documents_to_azure_search], [search_azure_ai]), the PDF chunker
    ([load_and_split_pdf]), the sidebar ingestion block and the chat input
    handler.

    Python code is rendered in a small state-and-exception monad.  What the
    program cannot see into (the search service, the text generation service,
    [uuid], [tempfile], [pypdf] and the Semantic Kernel text chunker) is
    collected in two interfaces, [Remote] and [Runtime]; the program is
    written once against them.  Console logging ([print]) has no influence on
    results or state and is left out. *)

From Stdlib Require Import ZArith String Ascii.
From Stdlib.Strings Require Import Byte.
From stdpp Require Import base option list gmap strings pretty.


Set Warnings "-register-all".

(** ** JSON values, HTTP responses and Python exceptions *)

Inductive json : Type :=
| JNull
| JBool (b : bool)
| JNum (n : Z)
| JStr (s : string)
| JArr (xs : list json)
| JObj (kvs : list (string * json)).

(** An HTTP response as [requests] hands it over: the status code and the
    body, which is [None] when it does not decode as JSON. *)
Record response := Response { status_code : Z; body : option json }.

Inductive exn : Type :=
| ConnectionError                 (* requests: no response was obtained *)
| HTTPError (r : response)        (* requests: raised by raise_for_status *)
| JSONDecodeError                 (* requests: response.json() on a non-JSON body *)
| KeyError (k : string)
| AttributeError
| TypeError
| FileNotFoundError
| ExternalError (msg : string)    (* an Exception raised inside pypdf, Semantic Kernel, ... *)
| RerunException.                 (* streamlit.rerun(): script control, a BaseException *)

(** [except requests.RequestException] *)
Definition is_RequestException (e : exn) : bool :=
  match e with
  | ConnectionError | HTTPError _ | JSONDecodeError => true
  | _ => false
  end.

(** [except Exception] *)
Definition is_Exception (e : exn) : bool :=
  match e with
  | RerunException => false
  | _ => true
  end.

Inductive result (A : Type) : Type :=
| Ok (a : A)
| Raise (e : exn).
Arguments Ok {A} a.
Arguments Raise {A} e.

(** ** The Python operations the program applies to decoded JSON *)

Module Py.

Fixpoint lookup (k : string) (d : list (string * json)) : option json :=
  match d with
  | [] => None
  | (k', v) :: d' => if decide (k = k') then Some v else lookup k d'
  end.

(** [d[k] = v] on a dict: an existing key keeps its place. *)
Fixpoint setitem (k : string) (v : json) (d : list (string * json))
  : list (string * json) :=
  match d with
  | [] => [(k, v)]
  | (k', v') :: d' =>
      if decide (k = k') then (k', v) :: d' else (k', v') :: setitem k v d'
  end.

(** A dict display [{k1: v1, k2: v2, ...}], evaluated left to right. *)
Definition dict (kvs : list (string * json)) : json :=
  JObj (foldl (λ d kv, setitem kv.1 kv.2 d) [] kvs).

(** [x.get(k, dflt)] *)
Definition get (x : json) (k : string) (dflt : json) : result json :=
  match x with
  | JObj d => Ok (default dflt (lookup k d))
  | _ => Raise AttributeError
  end.

(** [x[k]] with a string subscript *)
Definition getitem (x : json) (k : string) : result json :=
  match x with
  | JObj d => match lookup k d with Some v => Ok v | None => Raise (KeyError k) end
  | _ => Raise TypeError
  end.

(** The items of a [str]; the byte strings used here give its bytes, which
    are as much [str] items as its characters are. *)
Fixpoint chars (s : string) : list json :=
  match s with
  | EmptyString => []
  | String c s' => JStr (String c EmptyString) :: chars s'
  end.

(** [for doc in x]: the items a comprehension iterates over. *)
Definition iter (x : json) : result (list json) :=
  match x with
  | JArr xs => Ok xs
  | JObj d => Ok (map (λ kv, JStr kv.1) d)
  | JStr s => Ok (chars s)
  | _ => Raise TypeError
  end.

(** [sep.join(xs)]: every item has to be a [str]. *)
Fixpoint strs (xs : list json) : option (list string) :=
  match xs with
  | [] => Some []
  | JStr s :: xs' => option_map (cons s) (strs xs')
  | _ :: _ => None
  end.

Definition join (sep : string) (xs : list json) : result string :=
  match strs xs with
  | Some ss => Ok (String.concat sep ss)
  | None => Raise TypeError
  end.

End Py.

(** ** The outside world *)

Definition headers_t := list (string * string).

Inductive request : Type :=
| GET (url : string) (headers : headers_t)
| POST (url : string) (headers : headers_t) (payload : json).

(** What [kernel.invoke_prompt] is called with: the bare prompt, or a
    template with [KernelArguments(input=..., context=...)]. *)
Inductive gen_request : Type :=
| Bare (prompt : string)
| Templated (template : string) (input context : string).

(** What a library call yields: a value, or an ordinary Python exception. *)
Inductive outcome (A : Type) : Type :=
| Returns (a : A)
| Fails (msg : string).
Arguments Returns {A} a.
Arguments Fails {A} msg.

(** The search service and the text generation service.  [serve] answers one
    HTTP request: [None] when no response is obtained at all (connection
    error, timeout), a response with a status code otherwise. *)
Class Remote := {
  world : Type;
  serve : request → world → option response * world;
  invoke_prompt : gen_request → world → outcome string * world;
}.

(** What [tmp_file.write(data)] and the closing of the file at the end of the
    [with] block yield: all the bytes are in the file, or the operating system
    refuses (disk full, quota exceeded) and the file holds [kept]. *)
Inductive written : Type :=
| Written
| WriteFails (msg : string) (kept : list byte).

(** The libraries the program calls.  [uuid4 n] is the text of the [n]-th
    UUID drawn; [NamedTemporaryFile fs] is the name given to a new temporary
    file when the file system holds [fs]; [file_write data] is what writing
    [data] to that file yields. *)
Class Runtime := {
  uuid4 : nat → string;
  NamedTemporaryFile : gmap string (list byte) → string;
  file_write : list byte → written;
  page : Type;
  PdfReader : list byte → outcome (list page);
  extract_text : page → outcome (option string);
  split_plaintext_lines : string → nat → outcome (list string);
}.

(** The values read from the process environment at start-up. *)
Record config := Config {
  AZURE_SEARCH_SERVICE_ENDPOINT : string;
  AZURE_SEARCH_INDEX_NAME : string;
  AZURE_SEARCH_API_KEY : string;
  AZURE_SEARCH_KEY_FIELD_NAME : string;
  AZURE_SEARCH_CONTENT_FIELD_NAME : string;
}.

(** ** Program state *)

Record message := Message { role : string; content : string }.

(** [streamlit.session_state]: a key that was never assigned is [None]. *)
Record session := Session {
  rag_enabled : option bool;
  last_uploaded_file : option string;
  messages : option (list message);
}.

Inductive event : Type :=
| Sent (rq : request)
| Invoked (g : gen_request).

Inductive widget : Type :=
| StatusWrite (text : string)
| StatusUpdate (label : string) (state : string)
| ErrorBox (text : string)
| ErrorAbout (text : string) (e : exn)   (* an f-string ending in the exception *)
| ChatMessage (role : string) (text : string)
| Write (text : string).

Record state `{Remote} := State {
  remote : world;
  uuids_drawn : nat;
  fs : gmap string (list byte);
  session_state : session;
  calls : list event;        (* remote calls issued so far, oldest first *)
  screen : list widget;      (* what was displayed, oldest first *)
}.
Arguments State {_} _ _ _ _ _ _.

Section Monad.
Context `{Remote}.

Definition set_remote (w : world) (s : state) : state :=
  State w (uuids_drawn s) (fs s) (session_state s) (calls s) (screen s).
Definition set_uuids_drawn (n : nat) (s : state) : state :=
  State (remote s) n (fs s) (session_state s) (calls s) (screen s).
Definition set_fs (f : gmap string (list byte)) (s : state) : state :=
  State (remote s) (uuids_drawn s) f (session_state s) (calls s) (screen s).
Definition set_session (ss : session) (s : state) : state :=
  State (remote s) (uuids_drawn s) (fs s) ss (calls s) (screen s).
Definition log_call (e : event) (s : state) : state :=
  State (remote s) (uuids_drawn s) (fs s) (session_state s) (calls s ++ [e]) (screen s).
Definition show (w : widget) (s : state) : state :=
  State (remote s) (uuids_drawn s) (fs s) (session_state s) (calls s) (screen s ++ [w]).

Definition M (A : Type) : Type := state → result A * state.

Definition ret {A} (a : A) : M A := λ s, (Ok a, s).
Definition raise {A} (e : exn) : M A := λ s, (Raise e, s).
Definition bind {A B} (m : M A) (k : A → M B) : M B := λ s,
  match m s with
  | (Ok a, s') => k a s'
  | (Raise e, s') => (Raise e, s')
  end.

Definition lift {A} (r : result A) : M A := λ s, (r, s).
Definition gets {A} (f : state → A) : M A := λ s, (Ok (f s), s).
Definition modify (f : state → state) : M unit := λ s, (Ok tt, f s).

(** [try: body / except <class> as e: handler e] *)
Definition try_except {A} (body : M A) (class : exn → bool) (handler : exn → M A)
  : M A := λ s,
  match body s with
  | (Raise e, s') => if class e then handler e s' else (Raise e, s')
  | r => r
  end.

(** [try: body / finally: cleanup] *)
Definition try_finally {A} (body : M A) (cleanup : M unit) : M A := λ s,
  let '(r, s1) := body s in
  match cleanup s1 with
  | (Ok _, s2) => (r, s2)
  | (Raise e, s2) => (Raise e, s2)
  end.

End Monad.

Notation "'let*' x := m 'in' k" := (bind m (λ x, k))
  (at level 10, x name, m at level 100, k at level 200,
   format "'[v' 'let*'  x  :=  m  'in' '/' k ']'").
Notation "m >> k" := (bind m (λ _, k))
  (at level 100, k at level 200, right associativity).

(** A list comprehension whose element expression may raise. *)
Fixpoint comprehension {A B} (f : A → result B) (xs : list A) : result (list B) :=
  match xs with
  | [] => Ok []
  | x :: xs' =>
      match f x with
      | Raise e => Raise e
      | Ok y => match comprehension f xs' with
                | Raise e => Raise e
                | Ok ys => Ok (y :: ys)
                end
      end
  end.

(** ** The [requests] library *)

Section Requests.
Context `{Remote}.

(** [requests.get] / [requests.post]: the request goes out (and is recorded
    in [calls]); a missing response is a [ConnectionError]. *)
Definition requests_send (rq : request) : M response := λ s,
  let '(answer, w) := serve rq (remote s) in
  let s' := log_call (Sent rq) (set_remote w s) in
  match answer with
  | Some r => (Ok r, s')
  | None => (Raise ConnectionError, s')
  end.

Definition requests_get (url : string) (headers : headers_t) : M response :=
  requests_send (GET url headers).
Definition requests_post (url : string) (headers : headers_t) (payload : json)
  : M response :=
  requests_send (POST url headers payload).

(** [Response.raise_for_status]: HTTPError for the client and server error
    codes, 400 to 599. *)
Definition is_error_status (code : Z) : bool :=
  ((400 <=? code) && (code <? 600))%Z.

Definition raise_for_status (r : response) : result unit :=
  if is_error_status (status_code r) then Raise (HTTPError r) else Ok tt.

(** [Response.json] *)
Definition response_json (r : response) : result json :=
  match body r with
  | Some j => Ok j
  | None => Raise JSONDecodeError
  end.

End Requests.

(** ** Index Store Client *)

Section Client.
Context `{Remote} `{Runtime} (cfg : config).

Definition KEY := AZURE_SEARCH_KEY_FIELD_NAME cfg.
Definition CONTENT := AZURE_SEARCH_CONTENT_FIELD_NAME cfg.

Definition docs_url (rest : string) : string :=
  AZURE_SEARCH_SERVICE_ENDPOINT cfg +:+ "/indexes/" +:+
  AZURE_SEARCH_INDEX_NAME cfg +:+ rest.

Definition list_keys_url : string :=
  docs_url ("/docs?api-version=2024-07-01&search=*&$select=" +:+ KEY).
Definition index_url : string :=
  docs_url "/docs/index?api-version=2024-07-01".
Definition search_url : string :=
  docs_url "/docs/search?api-version=2024-07-01".

Definition api_headers : headers_t :=
  [("Content-Type", "application/json"); ("api-key", AZURE_SEARCH_API_KEY cfg)].

(** [[doc[KEY] for doc in results.get("value", [])]] *)
Definition doc_keys_of (results : json) : result (list json) :=
  match Py.get results "value" (JArr []) with
  | Raise e => Raise e
  | Ok value =>
      match Py.iter value with
      | Raise e => Raise e
      | Ok docs => comprehension (λ doc, Py.getitem doc KEY) docs
      end
  end.

Definition delete_action (key : json) : json :=
  Py.dict [("@search.action", JStr "delete"); (KEY, key)].

Definition clear_azure_search_index : M bool :=
  try_except
    (let* response := requests_get list_keys_url api_headers in
     lift (raise_for_status response) >>
     let* results := lift (response_json response) in
     let* doc_keys := lift (doc_keys_of results) in
     match doc_keys with
     | [] => ret true
     | _ :: _ =>
         let documents_to_delete := map delete_action doc_keys in
         let payload := Py.dict [("value", JArr documents_to_delete)] in
         let* response := requests_post index_url api_headers payload in
         lift (raise_for_status response) >>
         ret true
     end)
    is_RequestException
    (λ e, ret false).

(** [str(uuid.uuid4())] *)
Definition uuid_uuid4 : M string := λ s,
  (Ok (uuid4 (uuids_drawn s)), set_uuids_drawn (S (uuids_drawn s)) s).

Definition upload_action (id : string) (doc : string) : json :=
  Py.dict [("@search.action", JStr "upload"); (KEY, JStr id); (CONTENT, JStr doc)].

(** The comprehension over [docs]: one UUID is drawn per chunk, in order. *)
Fixpoint documents_to_upload (docs : list string) : M (list json) :=
  match docs with
  | [] => ret []
  | doc :: docs' =>
      let* id := uuid_uuid4 in
      let* rest := documents_to_upload docs' in
      ret (upload_action id doc :: rest)
  end.

(** The inner [try] of the handler: only [HTTPError] carries a response. *)
Definition error_details_of (e : exn) : M json :=
  try_except
    (match e with
     | HTTPError r => lift (response_json r)
     | _ => ret (JStr "")
     end)
    is_Exception
    (λ _, ret (JStr "Could not parse error response from Azure AI Search.")).

Definition index_documents_to_azure_search (docs : list string) : M bool :=
  let* documents := documents_to_upload docs in
  let payload := Py.dict [("value", JArr documents)] in
  try_except
    (let* response := requests_post index_url api_headers payload in
     lift (raise_for_status response) >>
     ret true)
    is_RequestException
    (λ e, let* error_details := error_details_of e in ret false).

Definition LF : string := String "010"%char EmptyString.

Definition search_failure_message : string :=
  "검색 서비스 호출에 실패했습니다. CLI 콘솔의 에러 로그를 확인해주세요.".

(** [[doc.get(CONTENT, "") for doc in results.get("value", [])]] *)
Definition contents_of (results : json) : result (list json) :=
  match Py.get results "value" (JArr []) with
  | Raise e => Raise e
  | Ok value =>
      match Py.iter value with
      | Raise e => Raise e
      | Ok docs => comprehension (λ doc, Py.get doc CONTENT (JStr "")) docs
      end
  end.

Definition search_payload (query : string) : json :=
  Py.dict [("search", JStr query); ("count", JBool true); ("top", JNum 5);
           ("searchFields", JStr CONTENT)].

(** The [except] branch returns from the function; [None] stands for that
    early return. *)
Definition search_azure_ai (query : string) : M string :=
  let* found :=
    try_except
      (let* response := requests_post search_url api_headers (search_payload query) in
       lift (raise_for_status response) >>
       let* results := lift (response_json response) in
       ret (Some results))
      is_RequestException
      (λ e, ret None) in
  match found with
  | None => ret search_failure_message
  | Some results =>
      let* contents := lift (contents_of results) in
      lift (Py.join (LF +:+ LF) contents)
  end.

End Client.

(** ** Chunker *)

(** What [streamlit.file_uploader] returns for an uploaded file. *)
Record uploaded_file := UploadedFile { name : string; getvalue : list byte }.

Section Chunker.
Context `{Remote} `{Runtime}.

Definition from_library {A} (o : outcome A) : result A :=
  match o with
  | Returns a => Ok a
  | Fails msg => Raise (ExternalError msg)
  end.

(** The [with tempfile.NamedTemporaryFile(delete=False, suffix=".pdf")]
    block: the file is created under a new name and the bytes are written.
    Because of [delete=False] the file stays after the block, also when the
    write raises: the exception leaves the block, which only closes the
    file. *)
Definition write_temporary_file (data : list byte) : M string := λ s,
  let tmp_file_path := NamedTemporaryFile (fs s) in
  match file_write data with
  | Written => (Ok tmp_file_path, set_fs (<[tmp_file_path := data]> (fs s)) s)
  | WriteFails msg kept =>
      (Raise (ExternalError msg), set_fs (<[tmp_file_path := kept]> (fs s)) s)
  end.

Definition os_remove (path : string) : M unit := λ s,
  match fs s !! path with
  | Some _ => (Ok tt, set_fs (delete path (fs s)) s)
  | None => (Raise FileNotFoundError, s)
  end.

(** [pypdf.PdfReader(path).pages] *)
Definition reader_pages (path : string) : M (list page) := λ s,
  match fs s !! path with
  | Some data => (from_library (PdfReader data), s)
  | None => (Raise FileNotFoundError, s)
  end.

Definition truthy (text : option string) : bool :=
  match text with
  | None | Some EmptyString => false
  | Some _ => true
  end.

(** [page.extract_text() for page in reader.pages if page.extract_text()] *)
Fixpoint extracted_texts (pages : list page) : result (list string) :=
  match pages with
  | [] => Ok []
  | p :: pages' =>
      match from_library (extract_text p) with
      | Raise e => Raise e
      | Ok text =>
          if truthy text then
            match from_library (extract_text p), extracted_texts pages' with
            | Ok text', Ok rest => Ok (default "" text' :: rest)
            | Raise e, _ | Ok _, Raise e => Raise e
            end
          else extracted_texts pages'
      end
  end.

Definition load_and_split_pdf (file : uploaded_file) : M (list string) :=
  let* tmp_file_path := write_temporary_file (getvalue file) in
  try_finally
    (let* pages := reader_pages tmp_file_path in
     let* texts := lift (extracted_texts pages) in
     let full_text := String.concat "" texts in
     lift (from_library (split_plaintext_lines full_text 1000)))
    (os_remove tmp_file_path).

End Chunker.

(** ** The Streamlit script *)

Section Script.
Context `{Remote} `{Runtime} (cfg : config).

Definition dquote : string := String "034"%char EmptyString.

Definition qa_system_prompt : string :=
  LF +:+ "당신은 질문에 답변하는 AI 어시턴트입니다." +:+
  LF +:+ "제공된 컨텍스트 정보를 사용하여 질문에 답변해 주세요." +:+
  LF +:+ "만약 컨텍스트에서 답을 찾을 수 없다면, " +:+ dquote +:+
         "정보를 찾을 수 없습니다." +:+ dquote +:+ "라고 솔직하게 말해주세요." +:+
  LF +:+ "답변은 항상 한국어로, 친절한 존댓말로 작성해야 합니다." +:+
  LF +:+
  LF +:+ "---" +:+
  LF +:+ "[컨텍스트]:" +:+
  LF +:+ "{{$context}}" +:+
  LF +:+ "---" +:+
  LF +:+
  LF +:+ "[질문]:" +:+
  LF +:+ "{{$input}}" +:+
  LF +:+
  LF +:+ "[답변]:" +:+
  LF.

Definition display (w : widget) : M unit := modify (show w).

Definition get_session : M session := gets session_state.

Definition set_rag_enabled (b : bool) : M unit :=
  modify (λ s, set_session
    (Session (Some b) (last_uploaded_file (session_state s)) (messages (session_state s))) s).

Definition set_last_uploaded_file (n : string) : M unit :=
  modify (λ s, set_session
    (Session (rag_enabled (session_state s)) (Some n) (messages (session_state s))) s).

Definition set_messages (ms : list message) : M unit :=
  modify (λ s, set_session
    (Session (rag_enabled (session_state s)) (last_uploaded_file (session_state s)) (Some ms)) s).

(** [streamlit.session_state.messages.append(m)] *)
Definition messages_append (m : message) : M unit :=
  let* ss := get_session in
  match messages ss with
  | Some ms => set_messages (ms ++ [m])
  | None => raise AttributeError
  end.

Definition rerun : M unit := raise RerunException.

Definition learned_notice (file_name : string) : string :=
  "✅ **" +:+ file_name +:+ "** 파일의 내용을 성공적으로 학습했습니다." +:+ LF +:+ LF +:+
  "이제부터 파일 내용과 관련된 질문에 답변할 수 있습니다.".

(** ["last_uploaded_file" not in session_state or
     session_state.last_uploaded_file != uploaded_file.name] *)
Definition is_new_document (ss : session) (file : uploaded_file) : bool :=
  match last_uploaded_file ss with
  | None => true
  | Some last => negb (bool_decide (last = name file))
  end.

Definition status_clearing : string := "기존 인덱스 데이터를 초기화합니다...".
Definition status_analysing : string := "PDF 파일을 분석하고 있습니다...".
Definition status_split (n : nat) : string :=
  "파일을 " +:+ pretty n +:+ "개의 청크로 분할했습니다.".
Definition status_saving : string :=
  "분석된 내용을 Azure AI Search에 저장하고 있습니다...".

(** The body of [with streamlit.status("파일 처리 중...", expanded=True)]. *)
Definition ingest (file : uploaded_file) : M unit :=
  display (StatusWrite status_clearing) >>
  let* cleared := clear_azure_search_index cfg in
  if cleared : bool then
    display (StatusWrite status_analysing) >>
    let* split_docs := load_and_split_pdf file in
    display (StatusWrite (status_split (length split_docs))) >>
    display (StatusWrite status_saving) >>
    let* indexed := index_documents_to_azure_search cfg split_docs in
    if indexed : bool then
      display (StatusUpdate "파일 처리 완료!" "complete") >>
      set_rag_enabled true >>
      set_last_uploaded_file (name file) >>
      let* ss := get_session in
      (if messages ss is Some _
       then messages_append (Message "assistant" (learned_notice (name file)))
       else ret tt) >>
      rerun
    else
      display (StatusUpdate "파일 처리 실패" "error") >>
      display (ErrorBox "파일 내용을 AI Search에 저장하는 데 실패했습니다. CLI 로그를 확인해주세요.")
  else
    display (StatusUpdate "인덱스 초기화 실패" "error") >>
    display (ErrorBox "기존 인덱스 데이터를 삭제하는 데 실패했습니다. CLI 로그를 확인해주세요.").

(** The [with streamlit.sidebar:] block. *)
Definition sidebar (uploaded : option uploaded_file) : M unit :=
  match uploaded with
  | None => ret tt
  | Some file =>
      let* ss := get_session in
      if is_new_document ss file then ingest file else ret tt
  end.

Definition greeting : message :=
  Message "assistant" "무엇을 도와드릴까요? PDF를 업로드하면 문서 기반 답변이 가능합니다.".

(** [if "messages" not in streamlit.session_state: ...] *)
Definition init_messages : M unit :=
  let* ss := get_session in
  match messages ss with
  | None => set_messages [greeting]
  | Some _ => ret tt
  end.

Fixpoint display_all (ms : list message) : M unit :=
  match ms with
  | [] => ret tt
  | m :: ms' => display (ChatMessage (role m) (content m)) >> display_all ms'
  end.

Definition show_history : M unit :=
  let* ss := get_session in
  match messages ss with
  | Some ms => display_all ms
  | None => raise AttributeError
  end.

(** [asyncio.run(kernel.invoke_prompt(...))] followed by [str(result)] *)
Definition kernel_invoke_prompt (g : gen_request) : M string := λ s,
  let '(o, w) := invoke_prompt g (remote s) in
  (from_library o, log_call (Invoked g) (set_remote w s)).

(** [streamlit.session_state.get("rag_enabled", False)] as a condition *)
Definition rag_is_enabled (ss : session) : bool := default false (rag_enabled ss).

(** The body of [if prompt := streamlit.chat_input(...)]. *)
Definition answer (prompt : string) : M unit :=
  messages_append (Message "user" prompt) >>
  display (ChatMessage "user" prompt) >>
  try_except
    (let* ss := get_session in
     let* response :=
       (if rag_is_enabled ss then
          let* context := search_azure_ai cfg prompt in
          kernel_invoke_prompt (Templated qa_system_prompt prompt context)
        else
          kernel_invoke_prompt (Bare prompt)) in
     messages_append (Message "assistant" response) >>
     display (Write response))
    is_Exception
    (λ e, display (ErrorAbout "답변 생성 중 오류가 발생했습니다: " e)).

(** [chat_input] gives [None] until the user submits a text; an empty
    string is falsy as well. *)
Definition chat (prompt : option string) : M unit :=
  match prompt with
  | None | Some EmptyString => ret tt
  | Some p => answer p
  end.

(** One execution of the script, top to bottom, with the widget values of
    this run. *)
Definition script (uploaded : option uploaded_file) (prompt : option string) : M unit :=
  sidebar uploaded >>
  init_messages >>
  show_history >>
  chat prompt.

(** The session after a run; Streamlit keeps [session_state] whether the
    script ran to its end, asked for a rerun, or stopped on an exception. *)
Definition run (uploaded : option uploaded_file) (prompt : option string)
    (s : state) : state :=
  (script uploaded prompt s).2.

(** A session: one run per user interaction (or rerun), each with the
    widget values of that run. *)
Fixpoint runs (inputs : list (option uploaded_file * option string)) (s : state)
  : state :=
  match inputs with
  | [] => s
  | (uploaded, prompt) :: later => runs later (run uploaded prompt s)
  end.

End Script.

(** ** A model of the search index behind the two index endpoints *)

(** The search service is not part of the repository; this is the index as
    section 6 of the spec describes its interface, together with the ways a
    request can fail to reach it. *)
Module IndexService.

(** A request can miss the index: no response at all, or HTTP 503. *)
Inductive fault : Type := Unreachable | Unavailable.

(** The index holds (key, content) records.  [schedule] says, for the
    requests to come, whether each one reaches the index ([None]) or meets
    a fault; once it is used up every request reaches the index. *)
Record t := Make {
  records : list (string * string);
  schedule : list (option fault);
}.

Section Service.
Variable cfg : config.

Definition fault_answer (f : fault) : option response :=
  match f with
  | Unreachable => None
  | Unavailable => Some (Response 503 None)
  end.

Definition key_listing (recs : list (string * string)) : json :=
  JObj [("value", JArr (map (λ r, JObj [(KEY cfg, JStr r.1)]) recs))].

Fixpoint upsert (k c : string) (recs : list (string * string))
  : list (string * string) :=
  match recs with
  | [] => [(k, c)]
  | r :: recs' => if decide (r.1 = k) then (k, c) :: recs' else r :: upsert k c recs'
  end.

Definition remove (k : string) (recs : list (string * string))
  : list (string * string) :=
  filter (λ r, r.1 ≠ k) recs.

(** One action of a batch; [None] when the action is not understood. *)
Definition apply_action (a : json) (recs : list (string * string))
  : option (list (string * string)) :=
  match a with
  | JObj d =>
      match Py.lookup "@search.action" d, Py.lookup (KEY cfg) d with
      | Some (JStr "delete"), Some (JStr k) => Some (remove k recs)
      | Some (JStr "upload"), Some (JStr k) =>
          match Py.lookup (CONTENT cfg) d with
          | Some (JStr c) => Some (upsert k c recs)
          | _ => None
          end
      | _, _ => None
      end
  | _ => None
  end.

Fixpoint apply_batch (actions : list json) (recs : list (string * string))
  : option (list (string * string)) :=
  match actions with
  | [] => Some recs
  | a :: actions' =>
      match apply_action a recs with
      | Some recs' => apply_batch actions' recs'
      | None => None
      end
  end.

(** Modelled from the spec: the remote search index, which is not part of
    the repository.  Section 6 gives its interface: the key listing answers
    with the key of every record, and the bulk endpoint takes a batch of
    [delete] and [upload] actions.  Requests it does not know are answered
    404, batches it does not understand 400. *)
Definition handle (rq : request) (recs : list (string * string))
  : response * list (string * string) :=
  match rq with
  | GET url _ =>
      if decide (url = list_keys_url cfg)
      then (Response 200 (Some (key_listing recs)), recs)
      else (Response 404 None, recs)
  | POST url _ (JObj [("value", JArr actions)]) =>
      if decide (url = index_url cfg) then
        match apply_batch actions recs with
        | Some recs' => (Response 200 (Some (JObj [])), recs')
        | None => (Response 400 None, recs)
        end
      else (Response 404 None, recs)
  | POST _ _ _ => (Response 400 None, recs)
  end.

Definition answer_request (rq : request) (w : t) : option response * t :=
  match schedule w with
  | Some f :: later => (fault_answer f, Make (records w) later)
  | None :: later =>
      let '(r, recs) := handle rq (records w) in (Some r, Make recs later)
  | [] =>
      let '(r, recs) := handle rq (records w) in (Some r, Make recs [])
  end.

Definition remote : Remote := {|
  world := t;
  serve := answer_request;
  invoke_prompt := λ g w, (Fails "no generation service", w);
|}.

End Service.

End IndexService.

(** ** The line splitter *)

(** [text_chunker.split_plaintext_lines] belongs to Semantic Kernel and is
    not part of the repository; this module holds the splitter that section
    4.1 of the spec describes. *)
Module TextChunker.

Definition is_LF (c : ascii) : bool := bool_decide (c = "010"%char).

Fixpoint lines (text : string) : list string :=
  match text with
  | EmptyString => [EmptyString]
  | String c text' =>
      if is_LF c then EmptyString :: lines text'
      else match lines text' with
           | l :: ls => String c l :: ls
           | [] => [String c EmptyString]
           end
  end.

Definition unlines (ls : list string) : string := String.concat LF ls.

(** [gather M chunk size ls]: [chunk] is the chunk being filled (its lines
    in order, [size] characters once joined); the result is the chunks from
    here on. *)
Fixpoint gather (M : nat) (chunk : list string) (size : nat) (ls : list string)
  : list (list string) :=
  match ls with
  | [] => [chunk]
  | l :: ls' =>
      if decide (size + 1 + String.length l ≤ M)%nat
      then gather M (chunk ++ [l]) (size + 1 + String.length l)%nat ls'
      else chunk :: gather M [l] (String.length l) ls'
  end.

Definition group (M : nat) (ls : list string) : list (list string) :=
  match ls with
  | [] => []
  | l :: ls' => gather M [l] (String.length l) ls'
  end.

(** Modelled from the spec: [text_chunker.split_plaintext_lines], missing
    from the repository.  Section 4.1 asks for chunks of at most a maximum
    size whose boundaries fall on line breaks, a line longer than the maximum
    being kept whole in a chunk of its own, and for no chunk at all on an
    empty text.  The text is cut into lines at the line feeds, and lines are
    gathered into a chunk in order for as long as the chunk stays within the
    maximum (sizes count characters). *)
Definition split_plaintext_lines (text : string) (M : nat) : list string :=
  match text with
  | EmptyString => []
  | _ => map unlines (group M (lines text))
  end.

End TextChunker.

(** ** Vocabulary of the statements *)

Section Vocabulary.
Context `{Remote} `{Runtime} (cfg : config).

(** A request succeeded when a response came back and [raise_for_status]
    let it pass. *)
Definition succeeded (a : option response) : bool :=
  match a with
  | Some r => negb (is_error_status (status_code r))
  | None => false
  end.

(** The records of one upload: the chunks get, in order, the UUIDs drawn
    after the [n] already drawn. *)
Fixpoint upload_batch (n : nat) (docs : list string) : list json :=
  match docs with
  | [] => []
  | doc :: docs' => upload_action cfg (uuid4 n) doc :: upload_batch (S n) docs'
  end.

Definition upload_request (n : nat) (docs : list string) : request :=
  POST (index_url cfg) (api_headers cfg) (Py.dict [("value", JArr (upload_batch n docs))]).

Definition list_keys_request : request :=
  GET (list_keys_url cfg) (api_headers cfg).

Definition delete_request (keys : list json) : request :=
  POST (index_url cfg) (api_headers cfg)
       (Py.dict [("value", JArr (map (delete_action cfg) keys))]).

Definition search_request (query : string) : request :=
  POST (search_url cfg) (api_headers cfg) (search_payload cfg query).

(** The three ways an ingestion attempt ends, as states: the screen of a
    failed clearing, the screen of a failed upload, and the session of a
    completed ingestion. *)
Definition clear_failed (s : state) : state :=
  show (ErrorBox "기존 인덱스 데이터를 삭제하는 데 실패했습니다. CLI 로그를 확인해주세요.")
    (show (StatusUpdate "인덱스 초기화 실패" "error") s).

Definition upload_failed (s : state) : state :=
  show (ErrorBox "파일 내용을 AI Search에 저장하는 데 실패했습니다. CLI 로그를 확인해주세요.")
    (show (StatusUpdate "파일 처리 실패" "error") s).

Definition ready (file : uploaded_file) (s : state) : state :=
  let s' := show (StatusUpdate "파일 처리 완료!" "complete") s in
  set_session
    (Session (Some true) (Some (name file))
       (match messages (session_state s') with
        | Some ms =>
            Some (ms ++ [Message "assistant" (learned_notice (name file))])%list
        | None => None
        end)) s'.

(** [m] keeps property [P] of the session state, however it ends. *)
Definition preserves {A} (P : session → Prop) (m : M A) : Prop :=
  ∀ s, P (session_state s) → P (session_state (m s).2).

(** The RAG flag is set. *)
Definition enabled (ss : session) : Prop := rag_enabled ss = Some true.

(** [m] leaves the session state alone. *)
Definition frames_session {A} (m : M A) : Prop :=
  ∀ s, session_state (m s).2 = session_state s.

(** The page texts that enter the full text: the ones that are neither
    [None] nor empty. *)
Definition page_texts (raw : list (option string)) : list string :=
  omap (λ text, if truthy text then text else None) raw.

(** What writing the bytes of a document to the temporary file, then
    extraction and splitting, make of them. *)
Definition chunks_of (data : list byte) : result (list string) :=
  match file_write data with
  | WriteFails msg _ => Raise (ExternalError msg)
  | Written =>
      match from_library (PdfReader data) with
      | Raise e => Raise e
      | Ok pages =>
          match extracted_texts pages with
          | Raise e => Raise e
          | Ok texts => from_library (split_plaintext_lines (String.concat "" texts) 1000)
          end
      end
  end.

(** The files left by [load_and_split_pdf] on the bytes [data], started with
    the files [files]. *)
Definition files_after (data : list byte) (files : gmap string (list byte)) :
    gmap string (list byte) :=
  let path := NamedTemporaryFile files in
  match file_write data with
  | Written => delete path (<[path := data]> files)
  | WriteFails _ kept => <[path := kept]> files
  end.

(** Whether the next request reaches the index of [IndexService]. *)
Definition reaches (sch : list (option IndexService.fault)) : bool :=
  match sch with
  | Some _ :: _ => false
  | _ => true
  end.

(** The three field names of an upload record do not collide. *)
Definition well_formed : Prop :=
  KEY cfg ≠ "@search.action" ∧ CONTENT cfg ≠ "@search.action" ∧ KEY cfg ≠ CONTENT cfg.

(** The key field of a record. *)
Definition record_key (rec : json) : option json :=
  match rec with
  | JObj d => Py.lookup (KEY cfg) d
  | _ => None
  end.

(** The text a search record contributes to the context. *)
Definition content_text (d : list (string * json)) : string :=
  match Py.lookup (CONTENT cfg) d with
  | Some (JStr c) => c
  | _ => ""
  end.

(** The state once request [rq] has gone out from [s]. *)
Definition after_request (rq : request) (s : state) : state :=
  log_call (Sent rq) (set_remote (serve rq (remote s)).2 s).

End Vocabulary.

(** ** Concrete surroundings used to run the program on examples *)

(** A remote side that replays prepared answers, one per request, and then
    stops answering; text generation replays prepared outcomes likewise. *)
Module Scripted.

Record t := Make {
  answers : list (option response);
  generations : list (outcome string);
}.

Definition answer_request (rq : request) (w : t) : option response * t :=
  match answers w with
  | a :: later => (a, Make later (generations w))
  | [] => (None, w)
  end.

Definition generate (g : gen_request) (w : t) : outcome string * t :=
  match generations w with
  | o :: later => (o, Make (answers w) later)
  | [] => (Fails "generation service unavailable", w)
  end.

Definition remote : Remote := {|
  world := t;
  serve := answer_request;
  invoke_prompt := generate;
|}.

End Scripted.

(** A runtime in which a file is a single page of plain text, UUIDs are the
    decimal numerals, and the chunker is [TextChunker]. *)
Module PlainText.

Definition runtime : Runtime := {|
  uuid4 := λ n, pretty n;
  NamedTemporaryFile := λ fs, fresh (dom fs);
  file_write := λ data, Written;
  page := string;
  PdfReader := λ data, Returns [string_of_list_byte data];
  extract_text := λ p, Returns (Some p);
  split_plaintext_lines := λ text M, Returns (TextChunker.split_plaintext_lines text M);
|}.

End PlainText.

(** A runtime whose PDF reader rejects every file. *)
Module Unreadable.

Definition runtime : Runtime := {|
  uuid4 := λ n, pretty n;
  NamedTemporaryFile := λ fs, fresh (dom fs);
  file_write := λ data, Written;
  page := string;
  PdfReader := λ data, Fails "not a PDF";
  extract_text := λ p, Returns (Some p);
  split_plaintext_lines := λ text M, Returns (TextChunker.split_plaintext_lines text M);
|}.

End Unreadable.

(** A runtime whose temporary directory is full: the file is created, the
    write is refused and nothing reaches the file. *)
Module FullDisk.

Definition runtime : Runtime := {|
  uuid4 := λ n, pretty n;
  NamedTemporaryFile := λ fs, fresh (dom fs);
  file_write := λ data, WriteFails "[Errno 28] No space left on device" [];
  page := string;
  PdfReader := λ data, Returns [string_of_list_byte data];
  extract_text := λ p, Returns (Some p);
  split_plaintext_lines := λ text M, Returns (TextChunker.split_plaintext_lines text M);
|}.

End FullDisk.

Definition default_config : config :=
  Config "https://search.example" "docs" "secret" "id" "content".

Definition new_session : session := Session None None None.

Definition initial_state `{Remote} (w : world) : state :=
  State w 0 ∅ new_session [] [].

(** A fresh session in front of a scripted remote side. *)
Definition scripted (answers : list (option response)) (generations : list (outcome string))
  : @state Scripted.remote :=
  @initial_state Scripted.remote (Scripted.Make answers generations).

(** A session that has ingested [report.pdf] and shown the greeting. *)
Definition grounded_session : session :=
  Session (Some true) (Some "report.pdf") (Some [greeting]).

(** A fresh session in front of an index that holds [recs] and is met by the
    faults of [sch]. *)
Definition indexed (recs : list (string * string)) (sch : list (option IndexService.fault))
  : @state (IndexService.remote default_config) :=
  @initial_state (IndexService.remote default_config) (IndexService.Make recs sch).

(** A grounded session in front of a scripted remote side. *)
Definition grounded (answers : list (option response)) (generations : list (outcome string))
  : @state Scripted.remote :=
  set_session grounded_session (scripted answers generations).

Definition report_pdf : uploaded_file :=
  UploadedFile "report.pdf" (list_byte_of_string "first line").

(** Another file under the same name. *)
Definition report_pdf_revised : uploaded_file :=
  UploadedFile "report.pdf" (list_byte_of_string "something else").

Definition other_pdf : uploaded_file :=
  UploadedFile "other.pdf" (list_byte_of_string "one" ++ [x0a] ++ list_byte_of_string "two").

Definition empty_listing : response :=
  Response 200 (Some (JObj [("value", JArr [])])).

Definition three_records : json :=
  JObj [("value", JArr [JObj [("content", JStr "alpha")];
                        JObj [("id", JStr "7")];
                        JObj [("content", JStr "beta")]])].

(** ** Vocabulary of the further statements *)

Section Further.
Context `{Remote} `{Runtime} (cfg : config).

(** The RAG flag and the recorded document name go together. *)
Definition consistent (ss : session) : Prop :=
  match rag_enabled ss, last_uploaded_file ss with
  | Some true, Some _ | None, None => True
  | _, _ => False
  end.

(** The history of [ss] starts with [ms]. *)
Definition extends (ms : list message) (ss : session) : Prop :=
  ∃ more, messages ss = Some (ms ++ more).

(** The state in which the chat handler reaches its [try] block. *)
Definition asked (prompt : string) (ms : list message) (s : state) : state :=
  show (ChatMessage "user" prompt)
    (set_session
       (Session (rag_enabled (session_state s)) (last_uploaded_file (session_state s))
          (Some (ms ++ [Message "user" prompt]))) s).

(** What the [try] block of the chat handler asks for: the grounded or the
    ungrounded reply. *)
Definition reply (prompt : string) (with_rag : bool) : M string :=
  if with_rag then
    let* context := search_azure_ai cfg prompt in
    kernel_invoke_prompt (Templated qa_system_prompt prompt context)
  else
    kernel_invoke_prompt (Bare prompt).

(** The value of a field that is present without being a [str]. *)
Definition not_a_str (v : json) : Prop := ∀ c, v ≠ JStr c.

(** The records an upload of [docs] stores, the first under the [n]-th UUID. *)
Fixpoint stored (n : nat) (docs : list string) : list (string * string) :=
  match docs with
  | [] => []
  | doc :: docs' => (uuid4 n, doc) :: stored (S n) docs'
  end.

End Further.

(** A configuration that names the key field like the content field. *)
Definition one_field_config : config :=
  Config "https://search.example" "docs" "secret" "content" "content".

(** A listing in which the second document has no key field. *)
Definition keyless_listing : response :=
  Response 200 (Some (JObj [("value", JArr [JObj [("id", JStr "a")]; JObj []])])).

(** A search result whose second record has a null content. *)
Definition null_content_result : response :=
  Response 200 (Some (JObj [("value", JArr [JObj [("content", JStr "alpha")];
                                            JObj [("content", JNull)]])])).

(** * Properties *)

(** ** Reading the client functions as equations *)

Ltac unfold_monad :=
  unfold bind, ret, raise, lift, gets, modify, try_except, try_finally in *.

Section ClientFacts.
Context `{Remote} `{Runtime} (cfg : config).

Lemma documents_to_upload_eq docs s :
  documents_to_upload cfg docs s =
  (Ok (upload_batch cfg (uuids_drawn s) docs),
   set_uuids_drawn (uuids_drawn s + length docs) s).
Proof.
  revert s. induction docs as [|doc docs IH]; intros s; simpl.
  - unfold ret, set_uuids_drawn. rewrite Nat.add_0_r. by destruct s.
  - unfold bind at 1. unfold uuid_uuid4 at 1. unfold bind at 1.
    rewrite IH. unfold ret. simpl.
    replace (uuids_drawn s + S (length docs)) with (S (uuids_drawn s + length docs)) by lia.
    reflexivity.
Qed.

Lemma error_details_of_total e s : ∃ j, error_details_of e s = (Ok j, s).
Proof.
  unfold error_details_of; unfold_monad.
  destruct e; eauto. unfold response_json. destruct (body r); simpl; eauto.
Qed.

Lemma requests_send_eq rq s :
  requests_send rq s =
  (match (serve rq (remote s)).1 with Some r => Ok r | None => Raise ConnectionError end,
   after_request rq s).
Proof.
  unfold requests_send, after_request. destruct (serve rq (remote s)) as [[r|] w]; done.
Qed.

(** [try: post; raise_for_status; return True / except: ... return False]
    comes down to [succeeded]. *)
Lemma index_documents_to_azure_search_eq docs s :
  index_documents_to_azure_search cfg docs s =
  (Ok (succeeded (serve (upload_request cfg (uuids_drawn s) docs) (remote s)).1),
   after_request (upload_request cfg (uuids_drawn s) docs)
     (set_uuids_drawn (uuids_drawn s + length docs) s)).
Proof.
  unfold index_documents_to_azure_search.
  unfold bind at 1. rewrite documents_to_upload_eq.
  unfold try_except, requests_post. unfold bind at 1.
  rewrite requests_send_eq. simpl.
  fold (upload_request cfg (uuids_drawn s) docs).
  set (s1 := after_request _ _).
  destruct (serve _ _) as [[r|] w]; simpl.
  - unfold_monad; unfold raise_for_status. simpl.
    destruct (is_error_status (status_code r)); simpl; [|done].
    by destruct (error_details_of_total (HTTPError r) s1) as [j ->].
  - unfold_monad.
    by destruct (error_details_of_total ConnectionError s1) as [j ->].
Qed.

End ClientFacts.
Section ClearFacts.
Context `{Remote} `{Runtime} (cfg : config).

Lemma comprehension_raise {A B} (f : A → result B) (P : exn → Prop) xs e :
  (∀ x e, f x = Raise e → P e) → comprehension f xs = Raise e → P e.
Proof.
  intros Hf. induction xs as [|x xs IH]; simpl; [done|].
  destruct (f x) eqn:Hx; [|intros [= <-]; eauto].
  destruct (comprehension f xs); [done|]. intros [= <-]. auto.
Qed.

(** Taking the listing apart fails only on the Python side. *)
Lemma doc_keys_of_raise results e :
  doc_keys_of cfg results = Raise e → is_RequestException e = false.
Proof.
  unfold doc_keys_of, Py.get, Py.iter.
  destruct results; try by intros [= <-].
  destruct (default _ _); try by intros [= <-].
  all: apply (comprehension_raise _ (λ e, is_RequestException e = false));
    intros x e'; unfold Py.getitem;
    destruct x; try (by intros [= <-]);
    destruct (Py.lookup _ _); by intros [= <-].
Qed.

Lemma clear_azure_search_index_eq s :
  let s1 := after_request (list_keys_request cfg) s in
  clear_azure_search_index cfg s =
  match (serve (list_keys_request cfg) (remote s)).1 with
  | None => (Ok false, s1)
  | Some r =>
      if is_error_status (status_code r) then (Ok false, s1) else
      match body r with
      | None => (Ok false, s1)
      | Some results =>
          match doc_keys_of cfg results with
          | Raise e => (Raise e, s1)
          | Ok [] => (Ok true, s1)
          | Ok keys =>
              (Ok (succeeded (serve (delete_request cfg keys) (remote s1)).1),
               after_request (delete_request cfg keys) s1)
          end
      end
  end.
Proof.
  intros s1. unfold clear_azure_search_index, try_except, requests_get.
  unfold bind at 1. rewrite requests_send_eq. fold (list_keys_request cfg). fold s1.
  destruct (serve _ _).1 as [r|]; simpl; [|done].
  unfold bind at 1, lift at 1, raise_for_status.
  destruct (is_error_status (status_code r)); simpl; [done|].
  unfold bind at 1, lift at 1, response_json.
  destruct (body r) as [results|]; simpl; [|done].
  unfold bind at 1, lift at 1.
  destruct (doc_keys_of cfg results) as [keys|e] eqn:Hk; simpl.
  - destruct keys as [|k keys]; [done|].
    unfold requests_post, bind at 1. rewrite requests_send_eq.
    fold (delete_request cfg (k :: keys)).
    destruct (serve _ _).1 as [r2|]; simpl; [|done].
    unfold_monad. unfold raise_for_status.
    by destruct (is_error_status (status_code r2)).
  - by rewrite (doc_keys_of_raise _ _ Hk).
Qed.

Lemma search_azure_ai_eq query s :
  let s1 := after_request (search_request cfg query) s in
  search_azure_ai cfg query s =
  match (serve (search_request cfg query) (remote s)).1 with
  | None => (Ok search_failure_message, s1)
  | Some r =>
      if is_error_status (status_code r) then (Ok search_failure_message, s1) else
      match body r with
      | None => (Ok search_failure_message, s1)
      | Some results =>
          match contents_of cfg results with
          | Raise e => (Raise e, s1)
          | Ok contents => (Py.join (LF +:+ LF) contents, s1)
          end
      end
  end.
Proof.
  intros s1. unfold search_azure_ai.
  unfold bind at 1, try_except, requests_post.
  unfold bind at 1. rewrite requests_send_eq. fold (search_request cfg query). fold s1.
  destruct (serve _ _).1 as [r|]; simpl; [|done].
  unfold bind at 1, lift at 1, raise_for_status.
  destruct (is_error_status (status_code r)); simpl; [done|].
  unfold bind at 1, lift at 1, response_json.
  destruct (body r) as [results|]; simpl; [|done].
  unfold_monad. by destruct (contents_of cfg results).
Qed.

End ClearFacts.

(** ** Retrieval Assembler *)

Section Retrieval.
Context `{Remote} `{Runtime} (cfg : config).

Lemma contents_of_records ds :
  Forall (λ d, Py.lookup (CONTENT cfg) d = None ∨
               ∃ c, Py.lookup (CONTENT cfg) d = Some (JStr c)) ds →
  comprehension (λ doc, Py.get doc (CONTENT cfg) (JStr "")) (map JObj ds) =
    Ok (map (λ d, JStr (content_text cfg d)) ds) ∧
  Py.strs (map (λ d, JStr (content_text cfg d)) ds) = Some (map (content_text cfg) ds).
Proof.
  induction 1 as [|d ds Hd _ [IH1 IH2]]; simpl; [done|].
  rewrite IH1, IH2. unfold content_text.
  by destruct Hd as [-> | [c ->]].
Qed.

(** C4, amended: a search that succeeds with records [ds], the content
    field of each being absent or a string, makes [search_azure_ai]
    return the content of each record, the empty string where the record
    has no content field, joined by one blank line between neighbours in
    the order of the response; without any record the result is the empty
    string, which is not the failure message. *)
Theorem search_azure_ai_joins_contents query s r results ds :
  (serve (search_request cfg query) (remote s)).1 = Some r →
  is_error_status (status_code r) = false →
  body r = Some results →
  Py.get results "value" (JArr []) = Ok (JArr (map JObj ds)) →
  Forall (λ d, Py.lookup (CONTENT cfg) d = None ∨
               ∃ c, Py.lookup (CONTENT cfg) d = Some (JStr c)) ds →
  (search_azure_ai cfg query s).1 =
    Ok (String.concat (LF +:+ LF) (map (content_text cfg) ds)) ∧
  (ds = [] → (search_azure_ai cfg query s).1 = Ok "") ∧
  "" ≠ search_failure_message.
Proof.
  intros Hr Hst Hb Hv Hds.
  assert ((search_azure_ai cfg query s).1 =
          Ok (String.concat (LF +:+ LF) (map (content_text cfg) ds))) as E.
  { rewrite search_azure_ai_eq. simpl. rewrite Hr, Hst, Hb.
    unfold contents_of. rewrite Hv. simpl.
    destruct (contents_of_records ds Hds) as [-> Hs]. simpl.
    unfold Py.join. by rewrite Hs. }
  split; [done|]. split; [|done].
  intros ->. by rewrite E.
Qed.

End Retrieval.

Lemma search_azure_ai_joins_contents_witness :
  (search_azure_ai default_config "q"
     (scripted [Some (Response 200 (Some three_records))] [])).1 =
  Ok ("alpha" +:+ LF +:+ LF +:+ LF +:+ LF +:+ "beta").
Proof.
  refine (proj1 (search_azure_ai_joins_contents default_config "q"
     (scripted [Some (Response 200 (Some three_records))] [])
     (Response 200 (Some three_records)) three_records
     [[("content", JStr "alpha")]; [("id", JStr "7")]; [("content", JStr "beta")]]
     _ _ _ _ _)); try reflexivity.
  apply List.Forall_cons; [right; by eexists|].
  apply List.Forall_cons; [by left|].
  apply List.Forall_cons; [right; by eexists|].
  apply List.Forall_nil.
Defined.

(** C4 as stated fails on a successful search with a record whose content
    field is present and null: [result.get] returns [None] for it, not the
    default, and the join, which is outside the [try] statement, raises a
    [TypeError] instead of returning the joined contents. *)
Lemma null_content_search_raises :
  (serve (search_request default_config "q")
         (remote (scripted [Some null_content_result] []))).1
    = Some null_content_result ∧
  is_error_status (status_code null_content_result) = false ∧
  (200 ≤ status_code null_content_result < 300)%Z ∧
  body null_content_result =
    Some (JObj [("value", JArr [JObj [("content", JStr "alpha")];
                                JObj [("content", JNull)]])]) ∧
  (search_azure_ai default_config "q"
     (scripted [Some null_content_result] [])).1 = Raise TypeError ∧
  ¬ ∃ text, (search_azure_ai default_config "q"
               (scripted [Some null_content_result] [])).1 = Ok text.
Proof.
  split_and!; try reflexivity; try (by vm_compute).
  intros [text Htext]. discriminate Htext.
Qed.

(** ** Failures of the remote calls *)

Section Failures.
Context `{Remote} `{Runtime} (cfg : config).

(** C6, amended: a request that fails, by a missing response or by an
    HTTP error status (400 to 599), makes [clear_azure_search_index] and
    [index_documents_to_azure_search] return false; neither lets a
    [RequestException] out, and the upload raises nothing at all.  The
    clearing returns true exactly when the listing succeeded and either
    listed no key or was followed by a delete request that succeeded; the
    upload returns true exactly when its one request succeeded. *)
Theorem request_failures_become_false s :
  let listing := serve (list_keys_request cfg) (remote s) in
  (succeeded listing.1 = false → (clear_azure_search_index cfg s).1 = Ok false) ∧
  (∀ keys r results,
     listing.1 = Some r → is_error_status (status_code r) = false →
     body r = Some results → doc_keys_of cfg results = Ok keys → keys ≠ [] →
     succeeded (serve (delete_request cfg keys) listing.2).1 = false →
     (clear_azure_search_index cfg s).1 = Ok false) ∧
  (∀ e, (clear_azure_search_index cfg s).1 = Raise e → is_RequestException e = false) ∧
  ((clear_azure_search_index cfg s).1 = Ok true ↔
     ∃ r results keys,
       listing.1 = Some r ∧ is_error_status (status_code r) = false ∧
       body r = Some results ∧ doc_keys_of cfg results = Ok keys ∧
       (keys = [] ∨ succeeded (serve (delete_request cfg keys) listing.2).1 = true)) ∧
  (∀ docs,
     (index_documents_to_azure_search cfg docs s).1 =
       Ok (succeeded (serve (upload_request cfg (uuids_drawn s) docs) (remote s)).1) ∧
     calls (index_documents_to_azure_search cfg docs s).2 =
       (calls s ++ [Sent (upload_request cfg (uuids_drawn s) docs)])%list).
Proof.
  intros listing. rewrite clear_azure_search_index_eq. fold listing.
  assert (remote (after_request (list_keys_request cfg) s) = listing.2) as Hrem by done.
  rewrite Hrem.
  repeat split.
  - destruct listing.1 as [r|]; simpl; [|done].
    intros Hs. apply negb_false_iff in Hs. by rewrite Hs.
  - intros keys r results -> -> -> -> Hne Hd. simpl.
    destruct keys; [done|]. simpl. by rewrite Hd.
  - intros e. destruct listing.1 as [r|]; simpl; [|done].
    destruct (is_error_status (status_code r)); [done|].
    destruct (body r) as [results|]; [|done].
    destruct (doc_keys_of cfg results) as [[|k keys]|e'] eqn:Hk; simpl; try done.
    intros [= <-]. by eapply doc_keys_of_raise.
  - destruct listing.1 as [r|]; simpl; [|done].
    destruct (is_error_status (status_code r)) eqn:Hst; [done|].
    destruct (body r) as [results|] eqn:Hb; [|done].
    destruct (doc_keys_of cfg results) as [[|k keys]|e'] eqn:Hk; simpl; try done.
    + intros _. exists r, results, []. auto 10.
    + intros [= Hd]. exists r, results, (k :: keys). auto 10.
  - intros (r & results & keys & -> & -> & -> & -> & Hk). simpl.
    destruct keys as [|k keys]; [done|]. simpl.
    destruct Hk as [|Hk]; [done|]. by rewrite Hk.
  - by rewrite index_documents_to_azure_search_eq.
  - by rewrite index_documents_to_azure_search_eq.
Qed.

End Failures.

(** C6 as stated fails on a status outside both 2xx and 400 to 599:
    [raise_for_status] lets 304 pass, so an upload answered 304, a non-2xx
    status, still returns true. *)
Lemma non_2xx_upload_returns_true :
  (serve (upload_request (H0 := PlainText.runtime) default_config 0 ["chunk"])
         (remote (scripted [Some (Response 304 None)] []))).1
    = Some (Response 304 None) ∧
  ¬ (200 ≤ 304 < 300)%Z ∧
  (index_documents_to_azure_search (H0 := PlainText.runtime) default_config ["chunk"]
     (scripted [Some (Response 304 None)] [])).1 = Ok true ∧
  (index_documents_to_azure_search (H0 := PlainText.runtime) default_config ["chunk"]
     (scripted [Some (Response 304 None)] [])).1 ≠ Ok false.
Proof. repeat split; [lia | done]. Qed.

Lemma request_failures_become_false_witness :
  succeeded (Some (Response 500 None)) = false ∧
  (clear_azure_search_index default_config (scripted [Some (Response 500 None)] [])).1
    = Ok false.
Proof.
  split; [reflexivity|].
  apply (proj1 (request_failures_become_false (H0 := PlainText.runtime) default_config
                  (scripted [Some (Response 500 None)] []))).
  reflexivity.
Defined.

(** ** The grounded branch of the chat handler *)

Section Grounded.
Context `{Remote} `{Runtime} (cfg : config).

Lemma search_azure_ai_on_failure query s :
  succeeded (serve (search_request cfg query) (remote s)).1 = false →
  search_azure_ai cfg query s =
    (Ok search_failure_message, after_request (search_request cfg query) s).
Proof.
  intros Hf. rewrite search_azure_ai_eq. simpl.
  destruct (serve _ _).1 as [r|]; simpl in *; [|done].
  apply negb_false_iff in Hf. by rewrite Hf.
Qed.

(** C5, amended: when the search request fails, by a missing response or
    by an HTTP error status (400 to 599, such as 500), [search_azure_ai]
    returns the fixed failure message and does not raise; with RAG enabled
    the chat handler then calls the generation service with the template,
    the user's text as [input] and that message as [context], and ends
    without raising whatever the generation service does. *)
Theorem search_failure_becomes_context prompt s ms :
  succeeded (serve (search_request cfg prompt) (remote s)).1 = false →
  rag_is_enabled (session_state s) = true →
  messages (session_state s) = Some ms →
  (search_azure_ai cfg prompt s).1 = Ok search_failure_message ∧
  (answer cfg prompt s).1 = Ok tt ∧
  calls (answer cfg prompt s).2 =
    (calls s ++ [Sent (search_request cfg prompt);
                 Invoked (Templated qa_system_prompt prompt search_failure_message)])%list.
Proof.
  intros Hf Hrag Hms. split.
  { by rewrite search_azure_ai_on_failure. }
  assert (∃ s', answer cfg prompt s = (Ok tt, s') ∧
            calls s' = (calls s ++ [Sent (search_request cfg prompt);
              Invoked (Templated qa_system_prompt prompt search_failure_message)])%list)
    as (s' & -> & Hcalls); [|done].
  unfold answer, messages_append, get_session, set_messages, display.
  unfold bind at 1. unfold bind at 1. unfold gets at 1. rewrite Hms.
  unfold modify at 1. unfold bind at 1. unfold modify at 1.
  unfold try_except. unfold bind at 1. unfold gets at 1.
  simpl session_state. unfold rag_is_enabled in *. simpl rag_enabled. rewrite Hrag.
  unfold bind at 1. unfold bind at 1.
  rewrite search_azure_ai_on_failure by exact Hf.
  unfold kernel_invoke_prompt. simpl remote.
  destruct (invoke_prompt _ _) as [[text|msg] w]; simpl.
  - unfold_monad. simpl. eexists; split; [reflexivity|].
    simpl. by rewrite <- app_assoc.
  - unfold_monad. simpl. eexists; split; [reflexivity|].
    simpl. by rewrite <- app_assoc.
Qed.

End Grounded.

(** C5 as stated fails on a status outside both 2xx and 400 to 599: a search
    answered 300 (Multiple Choices, which is not followed as a redirect) with
    a JSON body passes [raise_for_status], and the result is the joined
    contents of that body, not the failure message. *)
Lemma non_2xx_search_returns_contents :
  (serve (search_request default_config "q")
         (remote (scripted
            [Some (Response 300
               (Some (JObj [("value", JArr [JObj [("content", JStr "alpha")]])])))] []))).1
    = Some (Response 300
        (Some (JObj [("value", JArr [JObj [("content", JStr "alpha")]])]))) ∧
  ¬ (200 ≤ 300 < 300)%Z ∧
  (search_azure_ai default_config "q"
     (scripted
        [Some (Response 300
           (Some (JObj [("value", JArr [JObj [("content", JStr "alpha")]])])))] [])).1
    = Ok "alpha" ∧
  (search_azure_ai default_config "q"
     (scripted
        [Some (Response 300
           (Some (JObj [("value", JArr [JObj [("content", JStr "alpha")]])])))] [])).1
    ≠ Ok search_failure_message.
Proof. repeat split; [lia | done]. Qed.

Lemma search_failure_becomes_context_witness :
  (search_azure_ai default_config "What is X?"
     (set_session grounded_session
        (scripted [Some (Response 500 None)] [Returns "answer"]))).1
    = Ok search_failure_message ∧
  (answer default_config "What is X?"
     (set_session grounded_session
        (scripted [Some (Response 500 None)] [Returns "answer"]))).1 = Ok tt ∧
  calls (answer default_config "What is X?"
     (set_session grounded_session
        (scripted [Some (Response 500 None)] [Returns "answer"]))).2 =
    [Sent (search_request default_config "What is X?");
     Invoked (Templated qa_system_prompt "What is X?" search_failure_message)].
Proof.
  apply (search_failure_becomes_context default_config "What is X?"
           (set_session grounded_session
              (scripted [Some (Response 500 None)] [Returns "answer"]))
           [greeting]); reflexivity.
Defined.

(** ** Upload *)

Section Upload.
Context `{Remote} `{Runtime} (cfg : config).

Lemma upload_action_fields id doc :
  well_formed cfg →
  upload_action cfg id doc =
  JObj [("@search.action", JStr "upload"); (KEY cfg, JStr id); (CONTENT cfg, JStr doc)].
Proof.
  intros (Hka & Hca & Hkc). unfold upload_action, Py.dict. simpl.
  rewrite decide_False by done. simpl.
  rewrite decide_False by done. by rewrite decide_False by done.
Qed.

Lemma upload_batch_length n docs : length (upload_batch cfg n docs) = length docs.
Proof. revert n. induction docs; intros n; simpl; auto. Qed.

Lemma upload_batch_keys n docs :
  well_formed cfg →
  map (record_key cfg) (upload_batch cfg n docs) =
  map (λ i, Some (JStr (uuid4 i))) (seq n (length docs)).
Proof.
  intros Hwf. revert n. induction docs as [|doc docs IH]; intros n; [done|].
  cbn [upload_batch length seq map]. rewrite IH. f_equal.
  rewrite upload_action_fields by done.
  destruct Hwf as (Hka & _). simpl.
  rewrite decide_False by done. by rewrite decide_True.
Qed.

Lemma upload_batch_records n docs :
  well_formed cfg →
  Forall2 (λ doc rec, ∃ id,
    rec = JObj [("@search.action", JStr "upload"); (KEY cfg, JStr id);
                (CONTENT cfg, JStr doc)]) docs (upload_batch cfg n docs).
Proof.
  intros Hwf. revert n. induction docs as [|doc docs IH]; intros n.
  - constructor.
  - cbn [upload_batch]. constructor; [|apply IH].
    exists (uuid4 n). by apply upload_action_fields.
Qed.

(** C1, amended: an upload never raises; it sends one request whose batch
    holds one record per chunk, in order, each with the chunk as content and
    a key of its own, and returns whether that request succeeded.  With no
    chunk the request is sent all the same, with an empty batch, and the
    result is again whether it succeeded.  A second upload of the same
    chunks sends a second batch whose keys are all different from those of
    the first. *)
Theorem upload_one_record_per_chunk docs s :
  well_formed cfg →
  Inj (=) (=) uuid4 →
  let first := index_documents_to_azure_search cfg docs s in
  let second := index_documents_to_azure_search cfg docs first.2 in
  let batch1 := upload_batch cfg (uuids_drawn s) docs in
  let batch2 := upload_batch cfg (uuids_drawn s + length docs) docs in
  first.1 =
    Ok (succeeded (serve (POST (index_url cfg) (api_headers cfg)
                            (JObj [("value", JArr batch1)])) (remote s)).1) ∧
  calls first.2 =
    (calls s ++ [Sent (POST (index_url cfg) (api_headers cfg)
                         (JObj [("value", JArr batch1)]))])%list ∧
  length batch1 = length docs ∧
  (docs = [] →
     batch1 = [] ∧
     first.1 =
       Ok (succeeded (serve (POST (index_url cfg) (api_headers cfg)
                               (JObj [("value", JArr [])])) (remote s)).1) ∧
     first.2 = after_request (POST (index_url cfg) (api_headers cfg)
                                (JObj [("value", JArr [])])) s) ∧
  Forall2 (λ doc rec, ∃ id,
    rec = JObj [("@search.action", JStr "upload"); (KEY cfg, JStr id);
                (CONTENT cfg, JStr doc)]) docs batch1 ∧
  NoDup (map (record_key cfg) batch1) ∧
  calls second.2 =
    (calls first.2 ++ [Sent (POST (index_url cfg) (api_headers cfg)
                               (JObj [("value", JArr batch2)]))])%list ∧
  (∀ k, k ∈ map (record_key cfg) batch1 → k ∉ map (record_key cfg) batch2).
Proof.
  intros Hwf Hinj first second batch1 batch2.
  subst first second. rewrite !index_documents_to_azure_search_eq. simpl.
  split_and!.
  - done.
  - done.
  - apply upload_batch_length.
  - intros ->. split; [done|]. split; [done|]. simpl. unfold upload_request. simpl.
    rewrite Nat.add_0_r. by destruct s.
  - by apply upload_batch_records.
  - subst batch1. rewrite upload_batch_keys by done.
    apply NoDup_fmap_2; [|apply NoDup_seq].
    intros i j [= Hij]. by apply Hinj.
  - done.
  - subst batch1 batch2. rewrite !upload_batch_keys by done.
    intros k (i & -> & Hi)%list_elem_of_fmap (j & [= Hij] & Hj)%list_elem_of_fmap.
    apply Hinj in Hij. subst j.
    apply elem_of_seq in Hi, Hj. lia.
Qed.

End Upload.

Lemma upload_one_record_per_chunk_witness :
  calls (index_documents_to_azure_search (H0 := PlainText.runtime) default_config
           ["first chunk"; "second chunk"] (scripted [Some (Response 200 None)] [])).2 =
  [Sent (POST (index_url default_config) (api_headers default_config)
     (JObj [("value", JArr (upload_batch (H0 := PlainText.runtime) default_config 0
                              ["first chunk"; "second chunk"]))]))].
Proof.
  refine (proj1 (proj2 (upload_one_record_per_chunk (H0 := PlainText.runtime)
    default_config ["first chunk"; "second chunk"]
    (scripted [Some (Response 200 None)] []) _ pretty_nat_inj))).
  by repeat split.
Defined.

(** C1 as stated fails on the empty list: the upload is no no-op.  The
    request goes out with an empty batch, and when the service answers it
    with an error status the upload returns false, which the caller reports
    as a failed indexing. *)
Lemma empty_upload_is_sent_and_can_fail :
  (index_documents_to_azure_search (H0 := PlainText.runtime) default_config []
     (scripted [Some (Response 400 None)] [])).1 = Ok false ∧
  calls (scripted [Some (Response 400 None)] []) = [] ∧
  calls (index_documents_to_azure_search (H0 := PlainText.runtime) default_config []
     (scripted [Some (Response 400 None)] [])).2 =
    [Sent (POST (index_url default_config) (api_headers default_config)
             (JObj [("value", JArr [])]))] ∧
  (index_documents_to_azure_search (H0 := PlainText.runtime) default_config []
     (scripted [Some (Response 400 None)] [])).2 ≠ scripted [Some (Response 400 None)] [].
Proof. split_and!; try reflexivity. intros Hsame. discriminate Hsame. Qed.

(** ** Clearing the index, against the index model *)

Section Clearing.
Variable cfg : config.
Hypothesis key_is_not_action : KEY cfg ≠ "@search.action".

Local Existing Instance IndexService.remote.

Lemma doc_keys_of_listing recs :
  doc_keys_of cfg (IndexService.key_listing cfg recs) = Ok (map JStr (map fst recs)).
Proof.
  unfold doc_keys_of, IndexService.key_listing. simpl.
  induction recs as [|r recs IH]; simpl; [done|].
  rewrite decide_True by done. simpl in IH. by rewrite IH.
Qed.

Lemma delete_action_fields k :
  delete_action cfg (JStr k) = JObj [("@search.action", JStr "delete"); (KEY cfg, JStr k)].
Proof.
  unfold delete_action, Py.dict. simpl. by rewrite decide_False.
Qed.

Lemma apply_batch_delete ks recs :
  IndexService.apply_batch cfg (map (delete_action cfg) (map JStr ks)) recs =
  Some (foldl (λ acc k, IndexService.remove k acc) recs ks).
Proof.
  revert recs. induction ks as [|k ks IH]; intros recs; [done|].
  cbn [map IndexService.apply_batch foldl].
  rewrite delete_action_fields. unfold IndexService.apply_action. simpl.
  rewrite decide_False by done. rewrite decide_True by done. apply IH.
Qed.

Lemma remove_all ks (recs : list (string * string)) :
  (∀ r, r ∈ recs → r.1 ∈ ks) →
  foldl (λ acc k, IndexService.remove k acc) recs ks = [].
Proof.
  revert recs. induction ks as [|k ks IH]; intros recs Hall; simpl.
  - destruct recs as [|r recs]; [done|].
    specialize (Hall r (list_elem_of_here _ _)). by apply elem_of_nil in Hall.
  - apply IH. intros r [Hne Hr]%list_elem_of_filter.
    specialize (Hall r Hr). apply elem_of_cons in Hall as [?|?]; [|done].
    by destruct Hne.
Qed.

(** Whether the next request reaches the index. *)
Lemma answer_request_reaches rq (w : IndexService.t) :
  reaches (IndexService.schedule w) = true →
  IndexService.answer_request cfg rq w =
    (Some (IndexService.handle cfg rq (IndexService.records w)).1,
     IndexService.Make (IndexService.handle cfg rq (IndexService.records w)).2
                       (tail (IndexService.schedule w))).
Proof.
  unfold IndexService.answer_request, reaches.
  destruct (IndexService.schedule w) as [|[f|] later]; try done;
    by destruct (IndexService.handle _ _ _).
Qed.

Lemma answer_request_fault rq (w : IndexService.t) :
  reaches (IndexService.schedule w) = false →
  succeeded (IndexService.answer_request cfg rq w).1 = false ∧
  IndexService.records (IndexService.answer_request cfg rq w).2 = IndexService.records w.
Proof.
  unfold IndexService.answer_request, reaches.
  destruct (IndexService.schedule w) as [|[[]|] later]; done.
Qed.

Lemma listing_keeps_records (w : IndexService.t) :
  IndexService.records (IndexService.answer_request cfg (list_keys_request cfg) w).2 =
  IndexService.records w.
Proof.
  destruct (reaches (IndexService.schedule w)) eqn:Hreach.
  - rewrite answer_request_reaches by done. simpl. by destruct (decide _).
  - by apply answer_request_fault.
Qed.

Lemma listing_answer (w : IndexService.t) :
  reaches (IndexService.schedule w) = true →
  (IndexService.answer_request cfg (list_keys_request cfg) w).1 =
    Some (Response 200 (Some (IndexService.key_listing cfg (IndexService.records w)))).
Proof.
  intros Hreach. rewrite answer_request_reaches by done. simpl.
  by rewrite decide_True.
Qed.

Lemma delete_request_effect ks (w : IndexService.t) :
  succeeded (IndexService.answer_request cfg (delete_request cfg (map JStr ks)) w).1 = true →
  IndexService.records (IndexService.answer_request cfg (delete_request cfg (map JStr ks)) w).2 =
    foldl (λ acc k, IndexService.remove k acc) (IndexService.records w) ks.
Proof.
  destruct (reaches (IndexService.schedule w)) eqn:Hreach.
  - rewrite answer_request_reaches by done. intros _.
    unfold delete_request, Py.dict. simpl.
    rewrite decide_True by done. by rewrite apply_batch_delete.
  - destruct (answer_request_fault (delete_request cfg (map JStr ks)) w Hreach) as [-> _].
    done.
Qed.

(** A clearing of an empty index. *)
Lemma clear_empty_index (s : @state (IndexService.remote cfg)) :
  IndexService.records (remote s) = [] →
  (clear_azure_search_index cfg s).1 = Ok (reaches (IndexService.schedule (remote s))) ∧
  calls (clear_azure_search_index cfg s).2 = (calls s ++ [Sent (list_keys_request cfg)])%list ∧
  IndexService.records (remote (clear_azure_search_index cfg s).2) = [].
Proof.
  intros Hrecs. rewrite clear_azure_search_index_eq.
  pose proof (listing_keeps_records (remote s)) as Hkeep.
  cbn [serve IndexService.remote].
  destruct (reaches (IndexService.schedule (remote s))) eqn:Hreach.
  - rewrite listing_answer by done. rewrite Hrecs.
    cbn [status_code body IndexService.key_listing map].
    simpl. by rewrite Hkeep.
  - destruct (answer_request_fault (list_keys_request cfg) (remote s) Hreach) as [Hf _].
    unfold after_request. cbn [serve IndexService.remote].
    destruct (IndexService.answer_request _ _ _) as [[r|] w]; simpl in *.
    + apply negb_false_iff in Hf. rewrite Hf. simpl. by rewrite Hkeep.
    + by rewrite Hkeep.
Qed.

(** A clearing that returns true leaves the index empty. *)
Lemma clear_true_empties (s : @state (IndexService.remote cfg)) :
  (clear_azure_search_index cfg s).1 = Ok true →
  IndexService.records (remote (clear_azure_search_index cfg s).2) = [].
Proof.
  rewrite clear_azure_search_index_eq.
  pose proof (listing_keeps_records (remote s)) as Hkeep.
  cbn [serve IndexService.remote].
  destruct (reaches (IndexService.schedule (remote s))) eqn:Hreach.
  - rewrite listing_answer by done.
    cbn [status_code body]. change (is_error_status 200) with false. cbv iota.
    rewrite doc_keys_of_listing.
    destruct (map fst (IndexService.records (remote s))) as [|k ks] eqn:Hks.
    + apply map_eq_nil in Hks. simpl. intros _. by rewrite Hkeep.
    + cbn [map fst snd].
      change (JStr k :: map JStr ks) with (map JStr (k :: ks)).
      cbn [fst snd]. intros [= Hok].
      unfold after_request at 1. cbn [remote set_remote log_call serve IndexService.remote].
      rewrite delete_request_effect by exact Hok.
      unfold after_request. cbn [remote set_remote log_call serve IndexService.remote].
      replace (IndexService.records _) with (IndexService.records (remote s))
        by (symmetry; exact Hkeep).
      apply remove_all.
      intros r' Hr'. rewrite <- Hks. by apply list_elem_of_fmap_2.
  - destruct (answer_request_fault (list_keys_request cfg) (remote s) Hreach) as [Hf _].
    destruct (IndexService.answer_request _ _ _) as [[r|] w]; simpl in *; [|done].
    apply negb_false_iff in Hf. by rewrite Hf.
Qed.

(** Without faults a clearing returns true. *)
Lemma clear_without_faults (s : @state (IndexService.remote cfg)) :
  IndexService.schedule (remote s) = [] →
  (clear_azure_search_index cfg s).1 = Ok true ∧
  IndexService.schedule (remote (clear_azure_search_index cfg s).2) = [].
Proof.
  intros Hquiet. rewrite clear_azure_search_index_eq.
  assert (∀ rq recs, IndexService.answer_request cfg rq (IndexService.Make recs []) =
            (Some (IndexService.handle cfg rq recs).1,
             IndexService.Make (IndexService.handle cfg rq recs).2 [])) as Hreach.
  { intros rq recs. unfold IndexService.answer_request. simpl.
    by destruct (IndexService.handle _ _ _). }
  unfold after_request. cbn [serve IndexService.remote remote set_remote log_call].
  destruct (remote s) as [recs sch]. simpl in Hquiet. subst sch.
  rewrite !Hreach. cbn [fst snd IndexService.handle list_keys_request].
  rewrite decide_True by done. cbn [fst snd status_code body].
  change (is_error_status 200) with false. cbv iota.
  rewrite doc_keys_of_listing.
  destruct (map fst recs) as [|k ks] eqn:Hks; [done|].
  cbn [map]. change (JStr k :: map JStr ks) with (map JStr (k :: ks)).
  generalize (k :: ks). intros ks'.
  cbn [fst snd]. rewrite !Hreach.
  unfold delete_request, Py.dict. simpl.
  rewrite decide_True by done. by rewrite apply_batch_delete.
Qed.

(** C2: on an empty index the clearing sends the key listing and nothing
    else, and returns true (when the listing reaches the index).  After a
    clearing that returned true the index is empty, and a second clearing
    is such a call: it sends no delete request and leaves the index empty,
    so two clearings in a row leave the index as the first one did.
    When no request meets a fault, both clearings return true, whatever
    the index held. *)
Theorem clear_azure_search_index_idempotent (s : @state (IndexService.remote cfg)) :
  let first := clear_azure_search_index cfg s in
  let second := clear_azure_search_index cfg first.2 in
  (IndexService.records (remote s) = [] →
     first.1 = Ok (reaches (IndexService.schedule (remote s))) ∧
     calls first.2 = (calls s ++ [Sent (list_keys_request cfg)])%list ∧
     IndexService.records (remote first.2) = []) ∧
  (first.1 = Ok true →
     IndexService.records (remote first.2) = [] ∧
     second.1 = Ok (reaches (IndexService.schedule (remote first.2))) ∧
     calls second.2 = (calls first.2 ++ [Sent (list_keys_request cfg)])%list ∧
     IndexService.records (remote second.2) = IndexService.records (remote first.2)) ∧
  (IndexService.schedule (remote s) = [] →
     first.1 = Ok true ∧ second.1 = Ok true ∧
     IndexService.records (remote second.2) = IndexService.records (remote first.2)).
Proof.
  intros first second.
  assert (first.1 = Ok true →
     IndexService.records (remote first.2) = [] ∧
     second.1 = Ok (reaches (IndexService.schedule (remote first.2))) ∧
     calls second.2 = (calls first.2 ++ [Sent (list_keys_request cfg)])%list ∧
     IndexService.records (remote second.2) = IndexService.records (remote first.2))
    as Hsecond.
  { intros Htrue. pose proof (clear_true_empties s Htrue) as Hnow.
    split; [done|]. destruct (clear_empty_index first.2 Hnow) as (? & ? & ?).
    split_and!; try done. subst first second. congruence. }
  split; [apply clear_empty_index|]. split; [done|].
  intros Hquiet. destruct (clear_without_faults s Hquiet) as [Htrue Hlater].
  destruct (Hsecond Htrue) as (_ & H2 & _ & H4).
  split; [done|]. split; [|done]. rewrite H2. subst first. by rewrite Hlater.
Qed.

End Clearing.

Lemma clear_azure_search_index_idempotent_witness :
  (clear_azure_search_index default_config
     (indexed [("k1", "alpha"); ("k2", "beta")] [])).1 = Ok true ∧
  IndexService.records
    (remote (clear_azure_search_index default_config
               (indexed [("k1", "alpha"); ("k2", "beta")] [])).2) = [] ∧
  (clear_azure_search_index default_config
     (clear_azure_search_index default_config
        (indexed [("k1", "alpha"); ("k2", "beta")] [])).2).1 = Ok true.
Proof.
  assert (KEY default_config ≠ "@search.action") as Hkey by done.
  assert ((clear_azure_search_index default_config
             (indexed [("k1", "alpha"); ("k2", "beta")] [])).1 = Ok true) as Hfirst
    by reflexivity.
  destruct (proj1 (proj2 (clear_azure_search_index_idempotent default_config Hkey
                     (indexed [("k1", "alpha"); ("k2", "beta")] []))) Hfirst)
    as (Hempty & Hsecond & _).
  split; [exact Hfirst|]. split; [exact Hempty|]. exact Hsecond.
Defined.

(** ** Chunker: the temporary file *)

Section TemporaryFile.
Context `{Remote} `{Runtime}.

Lemma set_fs_same (s : state) : set_fs (fs s) s = s.
Proof. by destruct s. Qed.

Lemma load_and_split_pdf_eq file s :
  load_and_split_pdf file s =
  (chunks_of (getvalue file), set_fs (files_after (getvalue file) (fs s)) s).
Proof.
  unfold load_and_split_pdf, chunks_of, files_after.
  set (path := NamedTemporaryFile (fs s)).
  unfold bind at 1, write_temporary_file at 1. fold path.
  destruct (file_write (getvalue file)) as [|msg kept]; [|done].
  unfold try_finally.
  unfold bind at 1, reader_pages at 1. cbn [fs set_fs].
  rewrite lookup_insert_eq.
  assert (∀ r : result (list string),
    (let '(r0, s1) := (r, set_fs (<[path:=getvalue file]> (fs s)) s) in
     match os_remove path s1 with
     | (Ok _, s2) => (r0, s2)
     | (Raise e, s2) => (Raise e, s2)
     end) = (r, set_fs (delete path (<[path:=getvalue file]> (fs s))) s)) as Hfin.
  { intros r. unfold os_remove. cbn [fs set_fs]. rewrite lookup_insert_eq.
    by destruct s. }
  destruct (from_library (PdfReader (getvalue file))) as [pages|e]; [|apply Hfin].
  unfold bind at 1, lift at 1.
  destruct (extracted_texts pages) as [texts|e]; [|apply Hfin].
  unfold lift. apply Hfin.
Qed.

(** C9: when the write to the temporary file is refused, the exception
    leaves [load_and_split_pdf] before the [try] statement is entered, so
    the [finally] clause that removes the file does not run: the call
    raises, and the file it created is still there, holding what was kept
    of the bytes; the other files and the rest of the state are as
    before. *)
Theorem failed_write_leaves_temporary_file file s msg kept :
  file_write (getvalue file) = WriteFails msg kept →
  let path := NamedTemporaryFile (fs s) in
  let after := load_and_split_pdf file s in
  after.1 = Raise (ExternalError msg) ∧
  fs after.2 !! path = Some kept ∧
  (∀ p, p ≠ path → fs after.2 !! p = fs s !! p) ∧
  after.2 = set_fs (<[path := kept]> (fs s)) s.
Proof.
  intros Hwrite path after. subst after.
  rewrite load_and_split_pdf_eq. unfold chunks_of, files_after. fold path.
  rewrite Hwrite. cbn [fst snd fs set_fs]. split_and!; [done| | |done].
  - destruct s. cbn [fs set_fs]. apply lookup_insert_eq.
  - intros p Hp. destruct s. cbn [fs set_fs]. by apply lookup_insert_ne.
Qed.

(** X17: when the write succeeds, [load_and_split_pdf] returns what
    extraction and splitting give, or raises what they raise, and in both
    cases no file is left under the name of the temporary file; the other
    files and the rest of the state are as before, so that with a name that
    was not in use the state is the one before the call. *)
Theorem written_file_is_removed file s :
  file_write (getvalue file) = Written →
  let path := NamedTemporaryFile (fs s) in
  let after := load_and_split_pdf file s in
  after.1 = chunks_of (getvalue file) ∧
  fs after.2 !! path = None ∧
  (∀ p, p ≠ path → fs after.2 !! p = fs s !! p) ∧
  after.2 = set_fs (delete path (fs s)) s ∧
  (fs s !! path = None → after.2 = s).
Proof.
  intros Hwrite path after. subst after.
  rewrite load_and_split_pdf_eq. unfold files_after. fold path.
  rewrite Hwrite. cbn [fst snd]. rewrite delete_insert_eq.
  split_and!; [done| | |done|].
  - destruct s. cbn [fs set_fs]. apply lookup_delete_eq.
  - intros p Hp. destruct s. cbn [fs set_fs]. by apply lookup_delete_ne.
  - intros Hfresh. rewrite delete_id by done. apply set_fs_same.
Qed.

End TemporaryFile.

Lemma fresh_name_unused (files : gmap string (list byte)) : files !! fresh (dom files) = None.
Proof. apply not_elem_of_dom, is_fresh. Qed.

Lemma failed_write_leaves_temporary_file_witness :
  (load_and_split_pdf (H0 := FullDisk.runtime) report_pdf (scripted [] [])).1 =
    Raise (ExternalError "[Errno 28] No space left on device") ∧
  fs (load_and_split_pdf (H0 := FullDisk.runtime) report_pdf (scripted [] [])).2
    !! fresh (dom (fs (scripted [] []))) = Some [].
Proof.
  destruct (failed_write_leaves_temporary_file (H0 := FullDisk.runtime)
              report_pdf (scripted [] []) "[Errno 28] No space left on device" []
              eq_refl)
    as (Hresult & Hfile & _).
  split; [exact Hresult | exact Hfile].
Defined.

Lemma written_file_is_removed_witness :
  (load_and_split_pdf (H0 := Unreadable.runtime) report_pdf (scripted [] [])).1 =
    Raise (ExternalError "not a PDF") ∧
  (load_and_split_pdf (H0 := Unreadable.runtime) report_pdf (scripted [] [])).2 =
    scripted [] [].
Proof.
  destruct (written_file_is_removed (H0 := Unreadable.runtime)
              report_pdf (scripted [] []) eq_refl)
    as (Hresult & _ & _ & _ & Hstate).
  split; [exact Hresult | exact (Hstate (fresh_name_unused _))].
Defined.

(** ** The session state across the script *)

Section SessionFrame.
Context `{Remote} `{Runtime} (cfg : config).

Lemma frames_preserves {A} (m : M A) P : frames_session m → preserves P m.
Proof. intros Hm s. by rewrite Hm. Qed.

Lemma preserves_ret {A} P (a : A) : preserves P (ret a).
Proof. by intros s. Qed.

Lemma preserves_raise {A} P e : preserves P (raise (A := A) e).
Proof. by intros s. Qed.

Lemma preserves_bind {A B} P (m : M A) (k : A → M B) :
  preserves P m → (∀ a, preserves P (k a)) → preserves P (bind m k).
Proof.
  intros Hm Hk s HP. unfold bind. specialize (Hm s HP).
  destruct (m s) as [[a|e] s']; simpl in *; [by apply Hk | done].
Qed.

Lemma preserves_try_except {A} P (m : M A) class handler :
  preserves P m → (∀ e, preserves P (handler e)) → preserves P (try_except m class handler).
Proof.
  intros Hm Hh s HP. unfold try_except. specialize (Hm s HP).
  destruct (m s) as [[a|e] s']; simpl in *; [done|].
  destruct (class e); [by apply Hh | done].
Qed.

Lemma frames_display w : frames_session (display w).
Proof. by intros s. Qed.

Lemma frames_clear : frames_session (clear_azure_search_index cfg).
Proof.
  intros s. rewrite clear_azure_search_index_eq. simpl.
  destruct (serve _ _).1 as [r|]; [|done].
  destruct (is_error_status _); [done|].
  destruct (body r) as [results|]; [|done].
  by destruct (doc_keys_of cfg results) as [[|k keys]|e].
Qed.

Lemma frames_upload docs : frames_session (index_documents_to_azure_search cfg docs).
Proof. intros s. by rewrite index_documents_to_azure_search_eq. Qed.

Lemma frames_search query : frames_session (search_azure_ai cfg query).
Proof.
  intros s. rewrite search_azure_ai_eq. simpl.
  destruct (serve _ _).1 as [r|]; [|done].
  destruct (is_error_status _); [done|].
  destruct (body r) as [results|]; [|done].
  by destruct (contents_of cfg results).
Qed.

Lemma frames_load file : frames_session (load_and_split_pdf file).
Proof. intros s. by rewrite load_and_split_pdf_eq. Qed.

Lemma frames_invoke g : frames_session (kernel_invoke_prompt g).
Proof. intros s. unfold kernel_invoke_prompt. by destruct (invoke_prompt _ _). Qed.

End SessionFrame.

(** ** Ingestion Orchestrator *)

Section Orchestrator.
Context `{Remote} `{Runtime} (cfg : config).

Lemma sidebar_new_document file s :
  is_new_document (session_state s) file = true →
  sidebar cfg (Some file) s = ingest cfg file s.
Proof. intros Hnew. unfold sidebar, bind, get_session, gets. by rewrite Hnew. Qed.

Lemma ingest_eq file s :
  ingest cfg file s =
  match clear_azure_search_index cfg (show (StatusWrite status_clearing) s) with
  | (Raise e, s1) => (Raise e, s1)
  | (Ok false, s1) => (Ok tt, clear_failed s1)
  | (Ok true, s1) =>
      match load_and_split_pdf file (show (StatusWrite status_analysing) s1) with
      | (Raise e, s2) => (Raise e, s2)
      | (Ok chunks, s2) =>
          match index_documents_to_azure_search cfg chunks
                  (show (StatusWrite status_saving)
                     (show (StatusWrite (status_split (length chunks))) s2)) with
          | (Raise e, s3) => (Raise e, s3)
          | (Ok false, s3) => (Ok tt, upload_failed s3)
          | (Ok true, s3) => (Raise RerunException, ready file s3)
          end
      end
  end.
Proof.
  unfold ingest, display, set_rag_enabled, set_last_uploaded_file, messages_append,
    set_messages, get_session, rerun.
  unfold_monad.
  destruct (clear_azure_search_index cfg _) as [[[]|e1] s1]; try done.
  destruct (load_and_split_pdf file _) as [[chunks|e2] s2]; try done.
  destruct (index_documents_to_azure_search cfg chunks _) as [[[]|e3] s3]; try done.
  unfold ready. simpl. by destruct (messages (session_state s3)).
Qed.

(** C7: when [clear_azure_search_index] returns false, and when
    [index_documents_to_azure_search] returns false after a clearing and a
    splitting that went through, the sidebar block ends normally with the
    session state (RAG flag, last ingested name, messages) exactly as it
    found it. *)
Theorem failed_ingestion_keeps_session file s :
  is_new_document (session_state s) file = true →
  let clearing :=
    clear_azure_search_index cfg (show (StatusWrite status_clearing) s) in
  let extracting :=
    load_and_split_pdf file (show (StatusWrite status_analysing) clearing.2) in
  let uploading chunks :=
    index_documents_to_azure_search cfg chunks
      (show (StatusWrite status_saving)
         (show (StatusWrite (status_split (length chunks))) extracting.2)) in
  (clearing.1 = Ok false →
     (sidebar cfg (Some file) s).1 = Ok tt ∧
     session_state (sidebar cfg (Some file) s).2 = session_state s) ∧
  (∀ chunks,
     clearing.1 = Ok true → extracting.1 = Ok chunks →
     (uploading chunks).1 = Ok false →
     (sidebar cfg (Some file) s).1 = Ok tt ∧
     session_state (sidebar cfg (Some file) s).2 = session_state s).
Proof.
  intros Hnew. cbv zeta.
  rewrite sidebar_new_document by done. rewrite ingest_eq.
  pose proof (frames_clear cfg (show (StatusWrite status_clearing) s)) as Hc.
  destruct (clear_azure_search_index cfg _) as [r1 s1]. simpl in Hc |- *.
  split.
  - by intros ->.
  - intros chunks ->.
    pose proof (frames_load file (show (StatusWrite status_analysing) s1)) as Hl.
    destruct (load_and_split_pdf file _) as [r2 s2]. simpl in Hl |- *.
    intros ->.
    pose proof (frames_upload cfg chunks (show (StatusWrite status_saving)
      (show (StatusWrite (status_split (length chunks))) s2))) as Hup.
    destruct (index_documents_to_azure_search cfg chunks _) as [r3 s3].
    simpl in Hup |- *. intros ->. simpl. by rewrite Hup, Hl, Hc.
Qed.

Lemma clear_calls s :
  ∃ later, calls (clear_azure_search_index cfg s).2 =
           (calls s ++ Sent (list_keys_request cfg) :: later)%list.
Proof.
  rewrite clear_azure_search_index_eq. simpl.
  destruct (serve _ _).1 as [r|]; [|by exists []].
  destruct (is_error_status _); [by exists []|].
  destruct (body r) as [results|]; [|by exists []].
  destruct (doc_keys_of cfg results) as [[|k keys]|e]; simpl; try by exists [].
  eexists. by rewrite <- app_assoc.
Qed.

Lemma load_calls file s : calls (load_and_split_pdf file s).2 = calls s.
Proof. by rewrite load_and_split_pdf_eq. Qed.

Lemma ingest_calls file s :
  ∃ later, calls (ingest cfg file s).2 =
           (calls s ++ Sent (list_keys_request cfg) :: later)%list.
Proof.
  rewrite ingest_eq.
  destruct (clear_calls (show (StatusWrite status_clearing) s)) as [l1 Hc].
  destruct (clear_azure_search_index cfg _) as [[[]|e1] s1]; simpl in Hc;
    [| by exists l1 | by exists l1].
  pose proof (load_calls file (show (StatusWrite status_analysing) s1)) as Hl.
  destruct (load_and_split_pdf file _) as [[chunks|e2] s2]; simpl in Hl;
    [| exists l1; simpl; by rewrite Hl].
  rewrite index_documents_to_azure_search_eq. simpl.
  destruct (succeeded _); simpl; rewrite Hl, Hc, <- app_assoc; by eexists.
Qed.

(** C8: a document whose name equals the last ingested name is skipped:
    the sidebar block does nothing at all, whatever the bytes of the file;
    without a document it does nothing either.  Otherwise (another name,
    or no name recorded yet) ingestion starts, with the key listing of the
    clearing as the first request.  So requests are issued only for a
    document whose name differs from the recorded one. *)
Theorem unchanged_document_is_skipped uploaded s :
  (∀ file, uploaded = Some file →
     last_uploaded_file (session_state s) = Some (name file) →
     sidebar cfg uploaded s = (Ok tt, s)) ∧
  (∀ file file', last_uploaded_file (session_state s) = Some (name file) →
     name file' = name file →
     sidebar cfg (Some file') s = (Ok tt, s)) ∧
  (uploaded = None → sidebar cfg uploaded s = (Ok tt, s)) ∧
  (∀ file, uploaded = Some file →
     last_uploaded_file (session_state s) ≠ Some (name file) →
     ∃ later, calls (sidebar cfg uploaded s).2 =
              (calls s ++ Sent (list_keys_request cfg) :: later)%list) ∧
  (calls (sidebar cfg uploaded s).2 ≠ calls s →
     ∃ file, uploaded = Some file ∧
             last_uploaded_file (session_state s) ≠ Some (name file)).
Proof.
  assert (∀ file, last_uploaded_file (session_state s) = Some (name file) →
            sidebar cfg (Some file) s = (Ok tt, s)) as Hskip.
  { intros file Hlast. unfold sidebar, bind, get_session, gets, is_new_document.
    rewrite Hlast. by rewrite bool_decide_true. }
  assert (∀ file, last_uploaded_file (session_state s) ≠ Some (name file) →
            is_new_document (session_state s) file = true) as Hnew.
  { intros file Hlast. unfold is_new_document.
    destruct (last_uploaded_file _) as [last|]; [|done].
    rewrite bool_decide_false; [done|]. intros ->. by apply Hlast. }
  split_and!.
  - intros file ->. apply Hskip.
  - intros file file' Hlast Hname. apply Hskip. by rewrite Hname.
  - by intros ->.
  - intros file -> Hlast. rewrite sidebar_new_document by auto. apply ingest_calls.
  - destruct uploaded as [file|]; [|done].
    intros Hcalls. exists file. split; [done|].
    intros Hlast. apply Hcalls. by rewrite Hskip.
Qed.

Lemma preserves_modify_session (f : state → state) P :
  (∀ s, P (session_state s) → P (session_state (f s))) → preserves P (modify f).
Proof. intros Hf s. apply Hf. Qed.

Lemma preserves_messages_append m : preserves enabled (messages_append m).
Proof.
  unfold messages_append. apply preserves_bind; [by intros s|]. intros ss.
  destruct (messages ss); [by intros s | apply preserves_raise].
Qed.

Lemma preserves_display_all ms : preserves enabled (display_all ms).
Proof.
  induction ms as [|m ms IH]; simpl; [apply preserves_ret|].
  apply preserves_bind; [|done]. apply frames_preserves, frames_display.
Qed.

Lemma preserves_ingest file : preserves enabled (ingest cfg file).
Proof.
  intros s Hs. rewrite ingest_eq.
  pose proof (frames_clear cfg (show (StatusWrite status_clearing) s)) as Hc.
  destruct (clear_azure_search_index cfg _) as [[[]|e1] s1]; simpl in Hc |- *;
    [| by rewrite Hc | by rewrite Hc].
  pose proof (frames_load file (show (StatusWrite status_analysing) s1)) as Hl.
  destruct (load_and_split_pdf file _) as [[chunks|e2] s2]; simpl in Hl |- *;
    [| by rewrite Hl, Hc].
  pose proof (frames_upload cfg chunks (show (StatusWrite status_saving)
    (show (StatusWrite (status_split (length chunks))) s2))) as Hup.
  destruct (index_documents_to_azure_search cfg chunks _) as [[[]|e3] s3];
    simpl in Hup |- *; [done | |]; by rewrite Hup, Hl, Hc.
Qed.

Lemma preserves_answer prompt : preserves enabled (answer cfg prompt).
Proof.
  unfold answer.
  apply preserves_bind; [apply preserves_messages_append|]. intros _.
  apply preserves_bind; [apply frames_preserves, frames_display|]. intros _.
  apply preserves_try_except; [|intros e; apply frames_preserves, frames_display].
  apply preserves_bind; [by intros s|]. intros ss.
  apply preserves_bind.
  - destruct (rag_is_enabled ss).
    + apply preserves_bind; [apply frames_preserves, frames_search|]. intros context.
      apply frames_preserves, frames_invoke.
    + apply frames_preserves, frames_invoke.
  - intros response.
    apply preserves_bind; [apply preserves_messages_append|]. intros _.
    apply frames_preserves, frames_display.
Qed.

Lemma preserves_script uploaded prompt : preserves enabled (script cfg uploaded prompt).
Proof.
  unfold script.
  apply preserves_bind.
  { unfold sidebar. destruct uploaded as [file|]; [|apply preserves_ret].
    apply preserves_bind; [by intros s|]. intros ss.
    destruct (is_new_document ss file); [apply preserves_ingest | apply preserves_ret]. }
  intros _. apply preserves_bind.
  { unfold init_messages. apply preserves_bind; [by intros s|]. intros ss.
    destruct (messages ss); [apply preserves_ret | by intros s]. }
  intros _. apply preserves_bind.
  { unfold show_history. apply preserves_bind; [by intros s|]. intros ss.
    destruct (messages ss); [apply preserves_display_all | apply preserves_raise]. }
  intros _. unfold chat.
  destruct prompt as [[|c p]|]; try apply preserves_ret. apply preserves_answer.
Qed.

(** C10: once the RAG flag is true it is true after every run of the
    script, and so after every sequence of runs, whatever file and text
    each run is given and whatever the remote services and the libraries
    do: failed clearings, failed uploads and generation errors included. *)
Theorem rag_enabled_is_never_reset inputs s :
  rag_enabled (session_state s) = Some true →
  rag_enabled (session_state (runs cfg inputs s)) = Some true.
Proof.
  revert s. induction inputs as [|[uploaded prompt] inputs IH]; intros s Hs; [done|].
  simpl. apply IH. unfold run. by apply preserves_script.
Qed.

End Orchestrator.

Lemma failed_ingestion_keeps_session_witness :
  session_state
    (sidebar (H0 := PlainText.runtime) default_config (Some other_pdf)
       (grounded [Some (Response 500 None)] [])).2 = grounded_session ∧
  session_state
    (sidebar (H0 := PlainText.runtime) default_config (Some other_pdf)
       (grounded [Some empty_listing; Some (Response 503 None)] [])).2 = grounded_session.
Proof.
  split.
  - refine (proj2 (proj1 (failed_ingestion_keeps_session (H0 := PlainText.runtime)
      default_config other_pdf (grounded [Some (Response 500 None)] []) _) _));
      reflexivity.
  - refine (proj2 (proj2 (failed_ingestion_keeps_session (H0 := PlainText.runtime)
      default_config other_pdf
      (grounded [Some empty_listing; Some (Response 503 None)] []) _)
      ["one" +:+ LF +:+ "two"] _ _ _)); vm_compute; reflexivity.
Defined.

Lemma unchanged_document_is_skipped_witness :
  sidebar (H0 := PlainText.runtime) default_config (Some report_pdf_revised)
    (grounded [] []) = (Ok tt, grounded [] []).
Proof.
  refine (proj1 (proj2 (unchanged_document_is_skipped (H0 := PlainText.runtime)
    default_config (Some report_pdf_revised) (grounded [] []))) report_pdf
    report_pdf_revised _ _); reflexivity.
Defined.

Lemma rag_enabled_is_never_reset_witness :
  rag_enabled (session_state
    (runs (H0 := PlainText.runtime) default_config
       [(Some other_pdf, None); (Some other_pdf, Some "What is X?")]
       (grounded [Some (Response 500 None); Some empty_listing; None; None]
                 [Fails "model overloaded"]))) = Some true.
Proof.
  apply (rag_enabled_is_never_reset (H0 := PlainText.runtime) default_config).
  reflexivity.
Defined.

(** ** The line splitter *)

Module TextChunkerFacts.
Import TextChunker.

Lemma append_cons c a b : String c a +:+ b = String c (a +:+ b).
Proof. reflexivity. Qed.

Lemma append_empty_r a : a +:+ "" = a.
Proof. induction a as [|c a IH]; [done|]. by rewrite append_cons, IH. Qed.

Lemma append_assoc a b c : (a +:+ b) +:+ c = a +:+ b +:+ c.
Proof. induction a as [|x a IH]; [done|]. by rewrite !append_cons, IH. Qed.

Lemma length_append a b : String.length (a +:+ b) = String.length a + String.length b.
Proof. induction a as [|c a IH]; [done|]. rewrite append_cons. simpl. by rewrite IH. Qed.

Lemma unlines_cons l l' ls : unlines (l :: l' :: ls) = l +:+ LF +:+ unlines (l' :: ls).
Proof. reflexivity. Qed.

Lemma unlines_push c l ls : unlines (String c l :: ls) = String c (unlines (l :: ls)).
Proof. destruct ls; [done|]. by rewrite !unlines_cons, append_cons. Qed.

Lemma lines_nonempty text : lines text ≠ [].
Proof.
  destruct text as [|c text]; simpl; [done|].
  destruct (is_LF c); [done|]. by destruct (lines text).
Qed.

(** Joining the lines of a text with line feeds gives the text back. *)
Lemma unlines_lines text : unlines (lines text) = text.
Proof.
  induction text as [|c text IH]; [done|]. simpl.
  pose proof (lines_nonempty text) as Hne.
  destruct (is_LF c) eqn:Hc.
  - apply bool_decide_eq_true in Hc as ->.
    destruct (lines text) as [|l ls]; [done|].
    rewrite unlines_cons, IH. done.
  - destruct (lines text) as [|l ls]; [done|].
    by rewrite unlines_push, IH.
Qed.

Lemma lines_append a b : lines (a +:+ LF +:+ b) = lines a ++ lines b.
Proof.
  induction a as [|c a IH]; [done|].
  rewrite append_cons. simpl. rewrite IH.
  pose proof (lines_nonempty a) as Hne.
  destruct (is_LF c); [done|]. by destruct (lines a).
Qed.

(** A line of a text holds no line feed: it is its own single line. *)
Lemma lines_of_line text : Forall (λ l, lines l = [l]) (lines text).
Proof.
  induction text as [|c text IH]; simpl; [by constructor|].
  pose proof (lines_nonempty text) as Hne.
  destruct (is_LF c) eqn:Hc; [by constructor|].
  destruct (lines text) as [|l ls]; [done|].
  apply Forall_cons in IH as [Hl Hls]. constructor; [|done].
  simpl. by rewrite Hc, Hl.
Qed.

Lemma lines_unlines ls :
  ls ≠ [] → Forall (λ l, lines l = [l]) ls → lines (unlines ls) = ls.
Proof.
  induction ls as [|l ls IH]; [done|]. intros _ [Hl Hls]%Forall_cons.
  destruct ls as [|l' ls]; [done|].
  rewrite unlines_cons, lines_append, Hl, IH; done.
Qed.

Lemma unlines_app a b :
  a ≠ [] → b ≠ [] → unlines (a ++ b) = unlines a +:+ LF +:+ unlines b.
Proof.
  intros Ha Hb. induction a as [|l a IH]; [done|].
  destruct a as [|l' a].
  - destruct b; [done|]. done.
  - change ((l :: l' :: a) ++ b) with (l :: l' :: (a ++ b)).
    rewrite !unlines_cons. change (l' :: a ++ b) with ((l' :: a) ++ b).
    rewrite IH by done. by rewrite !append_assoc.
Qed.

Lemma length_unlines_snoc chunk l :
  chunk ≠ [] →
  String.length (unlines (chunk ++ [l])) =
  String.length (unlines chunk) + 1 + String.length l.
Proof.
  intros Hne. rewrite unlines_app by done. rewrite !length_append.
  change (unlines [l]) with l. change (String.length LF) with 1. lia.
Qed.

Lemma length_unlines_elem l g : l ∈ g → String.length l ≤ String.length (unlines g).
Proof.
  induction g as [|l' g IH]; [by intros ?%elem_of_nil|].
  intros [->|Hl]%elem_of_cons.
  - destruct g; [done|]. rewrite unlines_cons, length_append. lia.
  - destruct g as [|l'' g]; [by apply elem_of_nil in Hl|].
    rewrite unlines_cons, !length_append. specialize (IH Hl). lia.
Qed.

Lemma in_concat_elem {A} (x : A) g groups : x ∈ g → g ∈ groups → x ∈ concat groups.
Proof.
  intros Hx Hg. induction groups as [|g' groups IH]; [by apply elem_of_nil in Hg|].
  simpl. apply elem_of_app. apply elem_of_cons in Hg as [<-|Hg]; auto.
Qed.

Lemma concat_elem_in {A} (x : A) groups : x ∈ concat groups → ∃ g, x ∈ g ∧ g ∈ groups.
Proof.
  induction groups as [|g groups IH]; simpl; [by intros ?%elem_of_nil|].
  intros [Hx|Hx]%elem_of_app.
  - exists g. split; [done | apply list_elem_of_here].
  - destruct (IH Hx) as (g' & ? & ?). exists g'. split; [done|]. by apply list_elem_of_further.
Qed.

(** The chunks of [gather] are the lines, in order. *)
Lemma concat_gather M chunk size ls : concat (gather M chunk size ls) = chunk ++ ls.
Proof.
  revert chunk size. induction ls as [|l ls IH]; intros chunk size; simpl.
  - done.
  - destruct (decide _); simpl; rewrite IH; by rewrite <- ?app_assoc.
Qed.

Lemma gather_nonempty M chunk size ls :
  chunk ≠ [] → Forall (λ g, g ≠ []) (gather M chunk size ls).
Proof.
  revert chunk size. induction ls as [|l ls IH]; intros chunk size Hne; simpl.
  - by constructor.
  - destruct (decide _).
    + apply IH. by destruct chunk.
    + constructor; [done|]. by apply IH.
Qed.

(** A chunk is within the maximum, or it is a single line. *)
Lemma gather_bounded M chunk size ls :
  chunk ≠ [] → size = String.length (unlines chunk) →
  (size ≤ M ∨ ∃ l, chunk = [l]) →
  Forall (λ g, String.length (unlines g) ≤ M ∨ ∃ l, g = [l]) (gather M chunk size ls).
Proof.
  revert chunk size. induction ls as [|l ls IH]; intros chunk size Hne Hsize Hb; simpl.
  - constructor; [|done]. destruct Hb; [left; lia | by right].
  - destruct (decide _) as [Hfit|Hover].
    + apply IH; [by destruct chunk | by rewrite length_unlines_snoc, Hsize | by left].
    + constructor; [destruct Hb; [left; lia | by right]|].
      apply IH; [done | done | right; by exists l].
Qed.

Lemma concat_group M ls : concat (group M ls) = ls.
Proof. destruct ls as [|l ls]; [done|]. apply concat_gather. Qed.

Lemma group_nonempty M ls : Forall (λ g, g ≠ []) (group M ls).
Proof. destruct ls as [|l ls]; [constructor|]. by apply gather_nonempty. Qed.

Lemma group_bounded M ls :
  Forall (λ g, String.length (unlines g) ≤ M ∨ ∃ l, g = [l]) (group M ls).
Proof.
  destruct ls as [|l ls]; [constructor|].
  apply gather_bounded; [done | done | right; by exists l].
Qed.

Lemma unlines_concat groups :
  Forall (λ g, g ≠ []) groups → unlines (map unlines groups) = unlines (concat groups).
Proof.
  induction 1 as [|g groups Hg Hgs IH]; [done|].
  destruct groups as [|g' groups].
  - simpl. by rewrite app_nil_r.
  - change (map unlines (g :: g' :: groups))
      with (unlines g :: unlines g' :: map unlines groups).
    rewrite unlines_cons.
    change (unlines g' :: map unlines groups) with (map unlines (g' :: groups)).
    rewrite IH. change (concat (g :: g' :: groups)) with (g ++ concat (g' :: groups)).
    rewrite unlines_app; [done | done |].
    apply Forall_cons in Hgs as [Hg' _]. simpl. by destruct g'.
Qed.

Lemma lines_of_groups groups :
  Forall (λ g, g ≠ []) groups →
  Forall (λ l, lines l = [l]) (concat groups) →
  concat (map lines (map unlines groups)) = concat groups.
Proof.
  induction 1 as [|g groups Hg Hgs IH]; [done|].
  simpl. intros [Hl Hls]%Forall_app. by rewrite lines_unlines, IH.
Qed.

(** The chunks of a text, put together again, and their sizes. *)
Lemma split_plaintext_lines_lossless text M :
  text ≠ "" →
  let chunks := split_plaintext_lines text M in
  unlines chunks = text ∧
  concat (map lines chunks) = lines text ∧
  Forall (λ c, String.length c ≤ M ∨ lines c = [c]) chunks ∧
  (∀ l, l ∈ lines text → M < String.length l → l ∈ chunks).
Proof.
  intros Hne chunks.
  assert (chunks = map unlines (group M (lines text))) as ->.
  { subst chunks. by destruct text. }
  pose proof (concat_group M (lines text)) as Hcat.
  pose proof (group_nonempty M (lines text)) as Hnon.
  pose proof (group_bounded M (lines text)) as Hbound.
  pose proof (lines_of_line text) as Hlines.
  split_and!.
  - by rewrite unlines_concat, Hcat, unlines_lines.
  - rewrite lines_of_groups; [done | done | by rewrite Hcat].
  - apply Forall_fmap, Forall_forall. intros g Hg.
    pose proof (proj1 (Forall_forall _ _) Hbound g Hg) as [Hfit|[l ->]]; [by left|].
    right. simpl. apply (proj1 (Forall_forall _ _) Hlines).
    rewrite <- Hcat. apply in_concat_elem with [l]; [apply list_elem_of_here | done].
  - intros l Hl Hlong. rewrite <- Hcat in Hl.
    apply concat_elem_in in Hl as (g & Hlg & Hg).
    apply list_elem_of_fmap. exists g. split; [|done].
    pose proof (proj1 (Forall_forall _ _) Hbound g Hg) as [Hfit|[l' ->]].
    + pose proof (length_unlines_elem l g Hlg). lia.
    + by apply list_elem_of_singleton in Hlg as ->.
Qed.

End TextChunkerFacts.

(** ** Chunker: the chunks *)

Section Chunks.
Context `{Remote} `{Runtime}.

Lemma extracted_texts_eq pages raw :
  Forall2 (λ p text, extract_text p = Returns text) pages raw →
  extracted_texts pages = Ok (page_texts raw).
Proof.
  induction 1 as [|p text pages raw Hp _ IH]; [done|].
  simpl. rewrite Hp, IH. unfold page_texts. simpl.
  destruct (truthy text) eqn:Ht; [|done].
  by destruct text.
Qed.

Lemma page_texts_none raw :
  Forall (λ text, truthy text = false) raw → page_texts raw = [].
Proof.
  unfold page_texts. induction 1 as [|text raw Ht _ IH]; [done|].
  simpl. by rewrite Ht.
Qed.

(** C3: for a document that is written to the temporary file, whose pages
    are read and yield their texts, the
    chunker joins the non-empty page texts without separator and splits
    the result; joined by line feeds the chunks are the text again, their
    lines in order are the lines of the text, every chunk is within the
    maximum or is one single line, and a line longer than the maximum is a
    chunk by itself.  When no page yields text there is no chunk. *)
Theorem load_and_split_pdf_is_lossless file s pages raw :
  (∀ text M, split_plaintext_lines text M =
             Returns (TextChunker.split_plaintext_lines text M)) →
  file_write (getvalue file) = Written →
  PdfReader (getvalue file) = Returns pages →
  Forall2 (λ p text, extract_text p = Returns text) pages raw →
  let full_text := String.concat "" (page_texts raw) in
  ∃ chunks,
    (load_and_split_pdf file s).1 = Ok chunks ∧
    (full_text = "" → chunks = []) ∧
    (Forall (λ text, truthy text = false) raw → chunks = []) ∧
    (full_text ≠ "" →
       TextChunker.unlines chunks = full_text ∧
       concat (map TextChunker.lines chunks) = TextChunker.lines full_text ∧
       Forall (λ c, String.length c ≤ 1000 ∨ TextChunker.lines c = [c]) chunks ∧
       (∀ l, l ∈ TextChunker.lines full_text → 1000 < String.length l → l ∈ chunks)).
Proof.
  intros Hsplit Hwrite Hread Hpages full_text.
  exists (TextChunker.split_plaintext_lines full_text 1000).
  split_and!.
  - rewrite load_and_split_pdf_eq. simpl. unfold chunks_of.
    rewrite Hwrite, Hread. simpl. rewrite (extracted_texts_eq _ _ Hpages).
    fold full_text. by rewrite Hsplit.
  - intros Hempty. by rewrite Hempty.
  - intros Hnone. subst full_text. by rewrite page_texts_none.
  - apply TextChunkerFacts.split_plaintext_lines_lossless.
Qed.

End Chunks.

Lemma load_and_split_pdf_is_lossless_witness :
  (load_and_split_pdf (H0 := PlainText.runtime) other_pdf (scripted [] [])).1 =
    Ok ["one" +:+ LF +:+ "two"] ∧
  TextChunker.unlines ["one" +:+ LF +:+ "two"] = "one" +:+ LF +:+ "two".
Proof.
  destruct (load_and_split_pdf_is_lossless (H0 := PlainText.runtime) other_pdf
              (scripted [] []) ["one" +:+ LF +:+ "two"] [Some ("one" +:+ LF +:+ "two")])
    as (chunks & Hresult & _ & _ & Hlossless).
  - reflexivity.
  - reflexivity.
  - reflexivity.
  - by repeat constructor.
  - assert (chunks = ["one" +:+ LF +:+ "two"]) as ->.
    { assert (Ok chunks = Ok ["one" +:+ LF +:+ "two"]) as [= ->]; [|done].
      rewrite <- Hresult. by vm_compute. }
    split; [exact Hresult|]. by vm_compute.
Defined.

(** ** The program on small inputs *)

(** A listing with one key, then a delete request answered 500. *)
Example clear_stops_on_failed_delete :
  (clear_azure_search_index default_config
     (scripted [Some (Response 200 (Some (JObj [("value", JArr [JObj [("id", JStr "a")]])])));
                Some (Response 500 None)] [])).1 = Ok false ∧
  calls (clear_azure_search_index default_config
     (scripted [Some (Response 200 (Some (JObj [("value", JArr [JObj [("id", JStr "a")]])])));
                Some (Response 500 None)] [])).2 =
  [Sent (list_keys_request default_config);
   Sent (POST (index_url default_config) (api_headers default_config)
      (JObj [("value", JArr [JObj [("@search.action", JStr "delete"); ("id", JStr "a")]])]))].
Proof. split; reflexivity. Qed.

(** A listed document without the key field ends the clearing with a
    [KeyError], which [except requests.RequestException] does not catch. *)
Example clear_raises_on_keyless_document :
  (clear_azure_search_index default_config
     (scripted [Some (Response 200 (Some (JObj [("value", JArr [JObj []])])))] [])).1
  = Raise (KeyError "id").
Proof. reflexivity. Qed.

Example split_in_lines :
  TextChunker.split_plaintext_lines
    ("ab" +:+ LF +:+ "cdefgh" +:+ LF +:+ "i" +:+ LF +:+ "j") 3 =
  ["ab"; "cdefgh"; "i" +:+ LF +:+ "j"].
Proof. reflexivity. Qed.

(** A document is ingested (the run ends in a rerun, the rerun skips the
    file), then a question is answered from the index. *)
Example ingest_then_ask :
  session_state
    (runs (H0 := PlainText.runtime) default_config
       [(Some other_pdf, None); (Some other_pdf, None); (None, Some "What is X?")]
       (scripted [Some empty_listing; Some (Response 200 None);
                  Some (Response 200 (Some three_records))]
                 [Returns "It is Y."])) =
    Session (Some true) (Some "other.pdf")
      (Some [greeting; Message "user" "What is X?"; Message "assistant" "It is Y."]) ∧
  calls
    (runs (H0 := PlainText.runtime) default_config
       [(Some other_pdf, None); (Some other_pdf, None); (None, Some "What is X?")]
       (scripted [Some empty_listing; Some (Response 200 None);
                  Some (Response 200 (Some three_records))]
                 [Returns "It is Y."])) =
    [Sent (list_keys_request default_config);
     Sent (upload_request (H0 := PlainText.runtime) default_config 0 ["one" +:+ LF +:+ "two"]);
     Sent (search_request default_config "What is X?");
     Invoked (Templated qa_system_prompt "What is X?"
                ("alpha" +:+ LF +:+ LF +:+ LF +:+ LF +:+ "beta"))].
Proof. split; vm_compute; reflexivity. Qed.

(** * Further properties of the program *)

(** ** Clearing: the shape of the listing *)

Section ListingShape.
Context `{Remote} `{Runtime} (cfg : config).

Lemma doc_keys_of_objects d ds :
  Py.lookup "value" d = Some (JArr (map JObj ds)) →
  doc_keys_of cfg (JObj d) =
  comprehension (λ doc, Py.getitem doc (KEY cfg)) (map JObj ds).
Proof. intros Hv. unfold doc_keys_of. simpl. by rewrite Hv. Qed.

Lemma keys_of_objects ds keys :
  Forall2 (λ d k, Py.lookup (KEY cfg) d = Some k) ds keys →
  comprehension (λ doc, Py.getitem doc (KEY cfg)) (map JObj ds) = Ok keys.
Proof.
  induction 1 as [|d k ds keys Hd _ IH]; [done|].
  simpl. by rewrite Hd, IH.
Qed.

Lemma keys_of_keyless ds :
  Exists (λ d, Py.lookup (KEY cfg) d = None) ds →
  comprehension (λ doc, Py.getitem doc (KEY cfg)) (map JObj ds) = Raise (KeyError (KEY cfg)).
Proof.
  induction 1 as [d ds Hd|d ds _ IH]; simpl.
  - by rewrite Hd.
  - destruct (Py.lookup (KEY cfg) d); [|done]. by rewrite IH.
Qed.

(** X1: when the listing succeeds and one of the listed documents has no
    key field, the clearing ends with [KeyError] for that field: it is not a
    [RequestException], so it leaves the function; only the listing has
    been sent, no delete request. *)
Theorem clear_raises_on_document_without_key s r d ds :
  (serve (list_keys_request cfg) (remote s)).1 = Some r →
  is_error_status (status_code r) = false →
  body r = Some (JObj d) →
  Py.lookup "value" d = Some (JArr (map JObj ds)) →
  Exists (λ d, Py.lookup (KEY cfg) d = None) ds →
  (clear_azure_search_index cfg s).1 = Raise (KeyError (KEY cfg)) ∧
  calls (clear_azure_search_index cfg s).2 = calls s ++ [Sent (list_keys_request cfg)].
Proof.
  intros Hr Hst Hb Hv Hmiss. rewrite clear_azure_search_index_eq. simpl.
  rewrite Hr, Hst, Hb, (doc_keys_of_objects _ _ Hv), (keys_of_keyless _ Hmiss). done.
Qed.

(** X2: a listing whose body is an object without ["value"] counts as an
    empty index: the clearing returns true and sends nothing after the
    listing. *)
Theorem clear_takes_missing_value_as_empty s r d :
  (serve (list_keys_request cfg) (remote s)).1 = Some r →
  is_error_status (status_code r) = false →
  body r = Some (JObj d) →
  Py.lookup "value" d = None →
  (clear_azure_search_index cfg s).1 = Ok true ∧
  calls (clear_azure_search_index cfg s).2 = calls s ++ [Sent (list_keys_request cfg)].
Proof.
  intros Hr Hst Hb Hv. rewrite clear_azure_search_index_eq. simpl.
  rewrite Hr, Hst, Hb. unfold doc_keys_of. simpl. by rewrite Hv.
Qed.

(** X3: when the listing names at least one key, the clearing sends exactly
    one more request: a POST to the bulk endpoint whose batch holds one
    delete action per listed key, in the order of the listing, each made of
    the action marker and the key.  Its outcome is the value returned. *)
Theorem clear_sends_one_bulk_delete s r d ds keys :
  KEY cfg ≠ "@search.action" →
  (serve (list_keys_request cfg) (remote s)).1 = Some r →
  is_error_status (status_code r) = false →
  body r = Some (JObj d) →
  Py.lookup "value" d = Some (JArr (map JObj ds)) →
  Forall2 (λ d k, Py.lookup (KEY cfg) d = Some k) ds keys →
  keys ≠ [] →
  let batch :=
    map (λ k, JObj [("@search.action", JStr "delete"); (KEY cfg, k)]) keys in
  let delete := POST (index_url cfg) (api_headers cfg) (JObj [("value", JArr batch)]) in
  calls (clear_azure_search_index cfg s).2 =
    calls s ++ [Sent (list_keys_request cfg); Sent delete] ∧
  (clear_azure_search_index cfg s).1 =
    Ok (succeeded (serve delete (serve (list_keys_request cfg) (remote s)).2).1).
Proof.
  intros Hkey Hr Hst Hb Hv Hkeys Hne batch delete.
  assert (delete_request cfg keys = delete) as Hdel.
  { assert (map (delete_action cfg) keys = batch) as Hbatch.
    { apply map_ext. intros k. unfold delete_action, Py.dict. simpl.
      by rewrite decide_False. }
    unfold delete_request, delete, Py.dict. simpl. by rewrite Hbatch. }
  rewrite clear_azure_search_index_eq. simpl.
  rewrite Hr, Hst, Hb, (doc_keys_of_objects _ _ Hv), (keys_of_objects _ _ Hkeys).
  destruct keys as [|k keys]; [done|]. rewrite Hdel. simpl.
  by rewrite <- app_assoc.
Qed.

End ListingShape.

Lemma clear_raises_on_document_without_key_witness :
  (clear_azure_search_index default_config (scripted [Some keyless_listing] [])).1
    = Raise (KeyError "id") ∧
  calls (clear_azure_search_index default_config (scripted [Some keyless_listing] [])).2
    = [Sent (list_keys_request default_config)].
Proof.
  apply (clear_raises_on_document_without_key default_config
           (scripted [Some keyless_listing] []) keyless_listing
           [("value", JArr [JObj [("id", JStr "a")]; JObj []])]
           [[("id", JStr "a")]; []]); try reflexivity.
  apply Exists_cons_tl, Exists_cons_hd. reflexivity.
Defined.

Lemma clear_takes_missing_value_as_empty_witness :
  (clear_azure_search_index default_config
     (scripted [Some (Response 200 (Some (JObj [("@odata.count", JNum 0)])))] [])).1
    = Ok true.
Proof.
  apply (clear_takes_missing_value_as_empty default_config
           (scripted [Some (Response 200 (Some (JObj [("@odata.count", JNum 0)])))] [])
           (Response 200 (Some (JObj [("@odata.count", JNum 0)])))
           [("@odata.count", JNum 0)]); reflexivity.
Defined.

Lemma clear_sends_one_bulk_delete_witness :
  (clear_azure_search_index default_config
     (scripted [Some (Response 200 (Some (JObj [("value",
                  JArr [JObj [("id", JStr "a")]; JObj [("id", JStr "b")]])])));
                Some (Response 200 None)] [])).1 = Ok true.
Proof.
  apply (clear_sends_one_bulk_delete default_config
     (scripted [Some (Response 200 (Some (JObj [("value",
                  JArr [JObj [("id", JStr "a")]; JObj [("id", JStr "b")]])])));
                Some (Response 200 None)] [])
     (Response 200 (Some (JObj [("value",
                  JArr [JObj [("id", JStr "a")]; JObj [("id", JStr "b")]])])))
     [("value", JArr [JObj [("id", JStr "a")]; JObj [("id", JStr "b")]])]
     [[("id", JStr "a")]; [("id", JStr "b")]] [JStr "a"; JStr "b"]);
    try done.
  by repeat constructor.
Defined.

(** ** The chat handler *)

Section ChatHandler.
Context `{Remote} `{Runtime} (cfg : config).

Lemma contents_of_raise results e :
  contents_of cfg results = Raise e → is_Exception e = true.
Proof.
  unfold contents_of, Py.get, Py.iter.
  destruct results; try by intros [= <-].
  destruct (default _ _); try by intros [= <-].
  all: apply (comprehension_raise _ (λ e, is_Exception e = true));
    intros x e'; destruct x; by intros [= <-].
Qed.

Lemma search_azure_ai_raise query s e :
  (search_azure_ai cfg query s).1 = Raise e → is_Exception e = true.
Proof.
  rewrite search_azure_ai_eq. simpl.
  destruct (serve _ _).1 as [r|]; [|done].
  destruct (is_error_status _); [done|].
  destruct (body r) as [results|]; [|done].
  destruct (contents_of cfg results) as [contents|e'] eqn:Hc; simpl.
  - unfold Py.join. destruct (Py.strs contents); [done|]. by intros [= <-].
  - intros [= <-]. by eapply contents_of_raise.
Qed.

(** The result of a search depends on the remote side only. *)
Lemma search_azure_ai_result query (s s' : state) :
  remote s = remote s' →
  (search_azure_ai cfg query s).1 = (search_azure_ai cfg query s').1 ∧
  remote (search_azure_ai cfg query s).2 = remote (search_azure_ai cfg query s').2.
Proof.
  intros Hrem. rewrite !search_azure_ai_eq. unfold after_request. simpl. rewrite Hrem.
  destruct (serve _ _) as [[r|] w]; simpl; [|done].
  destruct (is_error_status _); [done|].
  destruct (body r) as [results|]; [|done].
  by destruct (contents_of cfg results).
Qed.

Lemma reply_raise prompt with_rag s e :
  (reply cfg prompt with_rag s).1 = Raise e → is_Exception e = true.
Proof.
  unfold reply. destruct with_rag.
  - unfold bind. pose proof (search_azure_ai_raise prompt s) as Hs.
    destruct (search_azure_ai cfg prompt s) as [[context|e'] s1]; simpl in *.
    + unfold kernel_invoke_prompt. destruct (invoke_prompt _ _) as [[text|msg] w]; simpl;
        [done | by intros [= <-]].
    + intros [= <-]. by apply Hs.
  - unfold kernel_invoke_prompt. destruct (invoke_prompt _ _) as [[text|msg] w]; simpl;
      [done | by intros [= <-]].
Qed.

Lemma frames_reply prompt with_rag : frames_session (reply cfg prompt with_rag).
Proof.
  intros s. unfold reply. destruct with_rag; [|apply frames_invoke].
  unfold bind. pose proof (frames_search cfg prompt s) as Hs.
  destruct (search_azure_ai cfg prompt s) as [[context|e'] s1]; simpl in *; [|done].
  by rewrite frames_invoke.
Qed.

(** The handler, once the user's message is recorded and shown. *)
Lemma answer_eq prompt s ms :
  messages (session_state s) = Some ms →
  answer cfg prompt s =
  match reply cfg prompt (rag_is_enabled (session_state s)) (asked prompt ms s) with
  | (Ok response, s1) =>
      (Ok tt,
       show (Write response)
         (set_session
            (Session (rag_enabled (session_state s)) (last_uploaded_file (session_state s))
               (Some (ms ++ [Message "user" prompt; Message "assistant" response]))) s1))
  | (Raise e, s1) =>
      (Ok tt, show (ErrorAbout "답변 생성 중 오류가 발생했습니다: " e) s1)
  end.
Proof.
  intros Hms.
  pose proof (reply_raise prompt (rag_is_enabled (session_state s)) (asked prompt ms s)) as He.
  pose proof (frames_reply prompt (rag_is_enabled (session_state s)) (asked prompt ms s)) as Hf.
  unfold answer, messages_append, get_session, set_messages, display.
  unfold bind at 1. unfold bind at 1. unfold gets at 1. rewrite Hms.
  unfold modify at 1. unfold bind at 1. unfold modify at 1.
  unfold try_except. unfold bind at 1. unfold gets at 1.
  fold (asked prompt ms s). change (session_state (asked prompt ms s))
    with (Session (rag_enabled (session_state s)) (last_uploaded_file (session_state s))
            (Some (ms ++ [Message "user" prompt]))).
  change (rag_is_enabled (Session (rag_enabled (session_state s))
            (last_uploaded_file (session_state s)) (Some (ms ++ [Message "user" prompt]))))
    with (rag_is_enabled (session_state s)).
  unfold bind at 1. fold (reply cfg prompt (rag_is_enabled (session_state s))).
  destruct (reply cfg prompt _ _) as [[response|e] s1]; simpl in *.
  - unfold_monad. rewrite Hf. simpl. rewrite !Hf. simpl. by rewrite <- app_assoc.
  - by rewrite He.
Qed.

(** X4: with a history in place the chat handler never raises and keeps
    the RAG flag and the recorded name.  It records the user's message, and
    then either records and displays the reply, or displays an error and
    records nothing more. *)
Theorem answer_records_reply_or_error prompt s ms :
  messages (session_state s) = Some ms →
  (answer cfg prompt s).1 = Ok tt ∧
  rag_enabled (session_state (answer cfg prompt s).2) = rag_enabled (session_state s) ∧
  last_uploaded_file (session_state (answer cfg prompt s).2) =
    last_uploaded_file (session_state s) ∧
  ((∃ response,
      messages (session_state (answer cfg prompt s).2) =
        Some (ms ++ [Message "user" prompt; Message "assistant" response]) ∧
      last (screen (answer cfg prompt s).2) = Some (Write response)) ∨
   (∃ e,
      messages (session_state (answer cfg prompt s).2) =
        Some (ms ++ [Message "user" prompt]) ∧
      last (screen (answer cfg prompt s).2) =
        Some (ErrorAbout "답변 생성 중 오류가 발생했습니다: " e))).
Proof.
  intros Hms. rewrite (answer_eq _ _ _ Hms).
  pose proof (frames_reply prompt (rag_is_enabled (session_state s)) (asked prompt ms s)) as Hf.
  destruct (reply cfg prompt _ _) as [[response|e] s1]; simpl in *.
  - split_and!; try done. left. exists response. split; [done|]. apply last_snoc.
  - rewrite Hf. split_and!; try done. right. exists e. split; [done|]. apply last_snoc.
Qed.

(** X5: without the RAG flag the handler calls the generation service with
    the bare text and sends no search; with the flag it searches first and,
    when the search returns a context, calls the generation service with the
    template, the text as input and that context. *)
Theorem answer_chooses_mode prompt s ms :
  messages (session_state s) = Some ms →
  (rag_is_enabled (session_state s) = false →
     calls (answer cfg prompt s).2 = calls s ++ [Invoked (Bare prompt)]) ∧
  (rag_is_enabled (session_state s) = true →
     ∀ context, (search_azure_ai cfg prompt s).1 = Ok context →
     calls (answer cfg prompt s).2 =
       calls s ++ [Sent (search_request cfg prompt);
                   Invoked (Templated qa_system_prompt prompt context)]).
Proof.
  intros Hms. rewrite (answer_eq _ _ _ Hms). split.
  - intros ->. unfold reply, kernel_invoke_prompt. simpl.
    by destruct (invoke_prompt _ _) as [[text|msg] w].
  - intros -> context Hctx. unfold reply, bind.
    destruct (search_azure_ai_result prompt (asked prompt ms s) s eq_refl) as [Hres _].
    rewrite Hctx in Hres.
    pose proof (search_azure_ai_eq cfg prompt (asked prompt ms s)) as Heq.
    simpl in Heq.
    assert (calls (search_azure_ai cfg prompt (asked prompt ms s)).2 =
            calls s ++ [Sent (search_request cfg prompt)]) as Hcalls.
    { rewrite Heq. destruct (serve _ _).1 as [r|]; [|done].
      destruct (is_error_status _); [done|].
      destruct (body r) as [results|]; [|done].
      by destruct (contents_of cfg results). }
    destruct (search_azure_ai cfg prompt (asked prompt ms s)) as [res s1].
    simpl in Hres, Hcalls. subst res.
    unfold kernel_invoke_prompt.
    destruct (invoke_prompt _ _) as [[text|msg] w]; simpl; rewrite Hcalls;
      by rewrite <- app_assoc.
Qed.

Lemma contents_of_objects ds :
  comprehension (λ doc, Py.get doc (CONTENT cfg) (JStr "")) (map JObj ds) =
  Ok (map (λ d, default (JStr "") (Py.lookup (CONTENT cfg) d)) ds).
Proof. induction ds as [|d ds IH]; [done|]. simpl. by rewrite IH. Qed.

Lemma strs_of_non_string ds :
  Exists (λ d, ∃ v, Py.lookup (CONTENT cfg) d = Some v ∧ not_a_str v) ds →
  Py.strs (map (λ d, default (JStr "") (Py.lookup (CONTENT cfg) d)) ds) = None.
Proof.
  induction 1 as [d ds (v & Hv & Hns)|d ds _ IH]; simpl.
  - rewrite Hv. simpl. destruct v; try done. by destruct (Hns s).
  - rewrite IH. by destruct (default _ _).
Qed.

(** X6: when a record of a successful search has a content that is not a
    string (a null, say), [search_azure_ai] raises [TypeError]: the joining
    is outside its [try].  In the chat handler the exception is caught: the
    handler ends normally, shows the error, records the user's message only
    and does not call the generation service. *)
Theorem non_string_content_stops_reply prompt s r results ds ms :
  (serve (search_request cfg prompt) (remote s)).1 = Some r →
  is_error_status (status_code r) = false →
  body r = Some results →
  Py.get results "value" (JArr []) = Ok (JArr (map JObj ds)) →
  Exists (λ d, ∃ v, Py.lookup (CONTENT cfg) d = Some v ∧ not_a_str v) ds →
  (search_azure_ai cfg prompt s).1 = Raise TypeError ∧
  (rag_is_enabled (session_state s) = true →
   messages (session_state s) = Some ms →
     (answer cfg prompt s).1 = Ok tt ∧
     calls (answer cfg prompt s).2 = calls s ++ [Sent (search_request cfg prompt)] ∧
     messages (session_state (answer cfg prompt s).2) =
       Some (ms ++ [Message "user" prompt]) ∧
     last (screen (answer cfg prompt s).2) =
       Some (ErrorAbout "답변 생성 중 오류가 발생했습니다: " TypeError)).
Proof.
  intros Hr Hst Hb Hv Hbad.
  assert (∀ s' : state, remote s' = remote s →
            search_azure_ai cfg prompt s' =
            (Raise TypeError, after_request (search_request cfg prompt) s')) as Hsearch.
  { intros s' Hrem. rewrite search_azure_ai_eq. simpl. rewrite Hrem, Hr, Hst, Hb.
    unfold contents_of. rewrite Hv. simpl. rewrite contents_of_objects.
    unfold Py.join. by rewrite strs_of_non_string. }
  split; [by rewrite Hsearch|].
  intros Hrag Hms. rewrite (answer_eq _ _ _ Hms), Hrag. unfold reply, bind.
  rewrite Hsearch by done. simpl. split_and!; try done. apply last_snoc.
Qed.

End ChatHandler.

Lemma answer_records_reply_or_error_witness :
  (answer default_config "What is X?"
     (grounded [Some (Response 200 (Some three_records))] [Returns "It is Y."])).1 = Ok tt.
Proof.
  apply (answer_records_reply_or_error default_config "What is X?"
           (grounded [Some (Response 200 (Some three_records))] [Returns "It is Y."])
           [greeting]).
  reflexivity.
Defined.

Lemma answer_chooses_mode_witness :
  calls (answer default_config "Hello"
           (set_session (Session None None (Some [greeting]))
              (scripted [] [Returns "Hi."]))).2 = [Invoked (Bare "Hello")].
Proof.
  apply (proj1 (answer_chooses_mode default_config "Hello"
           (set_session (Session None None (Some [greeting]))
              (scripted [] [Returns "Hi."])) [greeting] eq_refl)).
  reflexivity.
Defined.

Lemma non_string_content_stops_reply_witness :
  (search_azure_ai default_config "What is X?"
     (grounded [Some null_content_result] [Returns "unused"])).1 = Raise TypeError ∧
  calls (answer default_config "What is X?"
     (grounded [Some null_content_result] [Returns "unused"])).2 =
    [Sent (search_request default_config "What is X?")].
Proof.
  destruct (non_string_content_stops_reply default_config "What is X?"
    (grounded [Some null_content_result] [Returns "unused"])
    null_content_result
    (JObj [("value", JArr [JObj [("content", JStr "alpha")]; JObj [("content", JNull)]])])
    [[("content", JStr "alpha")]; [("content", JNull)]] [greeting])
    as [Hsearch Hanswer]; try reflexivity.
  - apply Exists_cons_tl, Exists_cons_hd. exists JNull. split; [reflexivity|].
    intros c. discriminate.
  - split; [exact Hsearch|]. apply Hanswer; reflexivity.
Defined.

(** ** The ways an ingestion attempt ends *)

Section Ingestion.
Context `{Remote} `{Runtime} (cfg : config).

(** X7: when the clearing, the splitting and the upload go through, the
    sidebar block ends in a rerun with the RAG flag set and the name of the
    file recorded; the notice is added to the history when there is one.
    The run ends there, so a text submitted with that run is neither
    recorded nor answered.  In the state the block leaves, the same file is
    skipped: the rerun sends nothing. *)
Theorem completed_ingestion_is_recorded file prompt s chunks :
  is_new_document (session_state s) file = true →
  let clearing :=
    clear_azure_search_index cfg (show (StatusWrite status_clearing) s) in
  let extracting :=
    load_and_split_pdf file (show (StatusWrite status_analysing) clearing.2) in
  let uploading :=
    index_documents_to_azure_search cfg chunks
      (show (StatusWrite status_saving)
         (show (StatusWrite (status_split (length chunks))) extracting.2)) in
  clearing.1 = Ok true → extracting.1 = Ok chunks → uploading.1 = Ok true →
  let done := (sidebar cfg (Some file) s).2 in
  (sidebar cfg (Some file) s).1 = Raise RerunException ∧
  rag_enabled (session_state done) = Some true ∧
  last_uploaded_file (session_state done) = Some (name file) ∧
  messages (session_state done) =
    (match messages (session_state s) with
     | Some ms => Some (ms ++ [Message "assistant" (learned_notice (name file))])
     | None => None
     end) ∧
  calls done = calls uploading.2 ∧
  script cfg (Some file) prompt s = (Raise RerunException, done) ∧
  sidebar cfg (Some file) done = (Ok tt, done).
Proof.
  intros Hnew. cbv zeta.
  rewrite sidebar_new_document by done. rewrite ingest_eq.
  pose proof (frames_clear cfg (show (StatusWrite status_clearing) s)) as Hc.
  destruct (clear_azure_search_index cfg _) as [r1 s1] eqn:E1. simpl in Hc |- *.
  intros ->.
  pose proof (frames_load file (show (StatusWrite status_analysing) s1)) as Hl.
  destruct (load_and_split_pdf file _) as [r2 s2] eqn:E2. simpl in Hl |- *.
  intros ->.
  pose proof (frames_upload cfg chunks (show (StatusWrite status_saving)
    (show (StatusWrite (status_split (length chunks))) s2))) as Hup.
  destruct (index_documents_to_azure_search cfg chunks _) as [r3 s3] eqn:E3.
  simpl in Hup |- *. intros ->. simpl.
  split_and!; try done.
  - by rewrite Hup, Hl, Hc.
  - unfold script. unfold bind at 1. rewrite sidebar_new_document by done.
    rewrite ingest_eq, E1, E2, E3. done.
  - unfold sidebar, bind, get_session, gets, is_new_document. simpl.
    by rewrite bool_decide_true.
Qed.

(** X8: an exception from writing the temporary file, from reading the
    PDF, from a page or from the splitter is not caught by the sidebar block: after a clearing that
    returned true the block, and with it the whole run, ends with that
    exception.  The session state is as before, no UUID is drawn and no
    request follows those of the clearing: the upload is never tried. *)
Theorem extraction_failure_ends_the_run file prompt s e :
  is_new_document (session_state s) file = true →
  let clearing :=
    clear_azure_search_index cfg (show (StatusWrite status_clearing) s) in
  clearing.1 = Ok true →
  chunks_of (getvalue file) = Raise e →
  (sidebar cfg (Some file) s).1 = Raise e ∧
  (script cfg (Some file) prompt s).1 = Raise e ∧
  session_state (script cfg (Some file) prompt s).2 = session_state s ∧
  uuids_drawn (script cfg (Some file) prompt s).2 = uuids_drawn clearing.2 ∧
  calls (script cfg (Some file) prompt s).2 = calls clearing.2.
Proof.
  intros Hnew. cbv zeta. intros Hclear Hchunks.
  assert (∃ s', sidebar cfg (Some file) s = (Raise e, s') ∧
            session_state s' = session_state s ∧
            uuids_drawn s' =
              uuids_drawn (clear_azure_search_index cfg
                             (show (StatusWrite status_clearing) s)).2 ∧
            calls s' =
              calls (clear_azure_search_index cfg
                       (show (StatusWrite status_clearing) s)).2)
    as (s' & Hside & Hsess & Huuid & Hcalls).
  { rewrite sidebar_new_document by done. rewrite ingest_eq.
    pose proof (frames_clear cfg (show (StatusWrite status_clearing) s)) as Hc.
    destruct (clear_azure_search_index cfg _) as [r1 s1]. simpl in Hc, Hclear |- *.
    subst r1. rewrite load_and_split_pdf_eq, Hchunks. simpl.
    eexists. split; [reflexivity|]. by simpl. }
  unfold script, bind. rewrite Hside. simpl. by split_and!.
Qed.

(** X9: when the clearing returns false nothing further is tried: the
    block shows the failure, and neither the file system, nor the UUIDs
    drawn, nor the requests sent differ from what the clearing left. *)
Theorem failed_clearing_ends_the_attempt file s :
  is_new_document (session_state s) file = true →
  let clearing :=
    clear_azure_search_index cfg (show (StatusWrite status_clearing) s) in
  clearing.1 = Ok false →
  sidebar cfg (Some file) s = (Ok tt, clear_failed clearing.2) ∧
  fs (sidebar cfg (Some file) s).2 = fs s ∧
  uuids_drawn (sidebar cfg (Some file) s).2 = uuids_drawn s ∧
  calls (sidebar cfg (Some file) s).2 = calls clearing.2.
Proof.
  intros Hnew. cbv zeta. intros Hclear.
  rewrite sidebar_new_document by done. rewrite ingest_eq.
  pose proof (clear_azure_search_index_eq cfg (show (StatusWrite status_clearing) s)) as Heq.
  destruct (clear_azure_search_index cfg _) as [r1 s1]. simpl in Hclear. subst r1.
  simpl. split; [done|].
  cbv zeta in Heq. revert Heq.
  destruct (serve _ _).1 as [r|]; [|by intros [= ->]].
  destruct (is_error_status _); [by intros [= ->]|].
  destruct (body r) as [results|]; [|by intros [= ->]].
  destruct (doc_keys_of cfg results) as [[|k keys]|e'] eqn:Hk; try done.
  by intros [= _ ->].
Qed.

End Ingestion.

Lemma completed_ingestion_is_recorded_witness :
  (sidebar (H0 := PlainText.runtime) default_config (Some other_pdf)
     (scripted [Some empty_listing; Some (Response 200 None)] [])).1
    = Raise RerunException ∧
  session_state
    (sidebar (H0 := PlainText.runtime) default_config (Some other_pdf)
       (scripted [Some empty_listing; Some (Response 200 None)] [])).2
    = Session (Some true) (Some "other.pdf") None.
Proof.
  destruct (completed_ingestion_is_recorded (H0 := PlainText.runtime) default_config
              other_pdf None (scripted [Some empty_listing; Some (Response 200 None)] [])
              ["one" +:+ LF +:+ "two"])
    as (Hrerun & Hrag & Hlast & Hms & _); try (vm_compute; reflexivity).
  split; [exact Hrerun|].
  destruct (session_state _) as [r l m]. simpl in *. by subst.
Defined.

Lemma extraction_failure_ends_the_run_witness :
  (script (H0 := Unreadable.runtime) default_config (Some other_pdf) (Some "What is X?")
     (scripted [Some empty_listing] [Returns "unused"])).1
    = Raise (ExternalError "not a PDF") ∧
  calls (script (H0 := Unreadable.runtime) default_config (Some other_pdf)
           (Some "What is X?") (scripted [Some empty_listing] [Returns "unused"])).2
    = [Sent (list_keys_request default_config)].
Proof.
  destruct (extraction_failure_ends_the_run (H0 := Unreadable.runtime) default_config
              other_pdf (Some "What is X?") (scripted [Some empty_listing] [Returns "unused"])
              (ExternalError "not a PDF"))
    as (_ & Hscript & _ & _ & Hcalls); try reflexivity.
  split; [exact Hscript | exact Hcalls].
Defined.

Lemma failed_clearing_ends_the_attempt_witness :
  calls (sidebar (H0 := PlainText.runtime) default_config (Some other_pdf)
           (scripted [Some (Response 500 None)] [])).2
    = [Sent (list_keys_request default_config)] ∧
  fs (sidebar (H0 := PlainText.runtime) default_config (Some other_pdf)
        (scripted [Some (Response 500 None)] [])).2 = ∅.
Proof.
  destruct (failed_clearing_ends_the_attempt (H0 := PlainText.runtime) default_config
              other_pdf (scripted [Some (Response 500 None)] []))
    as (_ & Hfs & _ & Hcalls); try reflexivity.
  split; [exact Hcalls | exact Hfs].
Defined.

(** ** What every run keeps *)

Section RunInvariants.
Context `{Remote} `{Runtime} (cfg : config).

(** The session state is written in three places only: where a message is
    appended, where the history is initialised, and at the end of a
    completed ingestion. *)
Lemma preserves_script_of P uploaded prompt :
  (∀ m, preserves P (messages_append m)) →
  preserves P init_messages →
  (∀ file, preserves P (ingest cfg file)) →
  preserves P (script cfg uploaded prompt).
Proof.
  intros Happend Hinit Hingest. unfold script.
  apply preserves_bind.
  { unfold sidebar. destruct uploaded as [file|]; [|apply preserves_ret].
    apply preserves_bind; [by intros s|]. intros ss.
    destruct (is_new_document ss file); [apply Hingest | apply preserves_ret]. }
  intros _. apply preserves_bind; [done|].
  intros _. apply preserves_bind.
  { unfold show_history. apply preserves_bind; [by intros s|]. intros ss.
    destruct (messages ss) as [ms|]; [|apply preserves_raise].
    induction ms as [|m ms IH]; simpl; [apply preserves_ret|].
    apply preserves_bind; [|done]. apply frames_preserves, frames_display. }
  intros _. unfold chat.
  destruct prompt as [[|c p]|]; try apply preserves_ret.
  unfold answer.
  apply preserves_bind; [apply Happend|]. intros _.
  apply preserves_bind; [apply frames_preserves, frames_display|]. intros _.
  apply preserves_try_except; [|intros e; apply frames_preserves, frames_display].
  apply preserves_bind; [by intros s|]. intros ss.
  apply preserves_bind.
  - destruct (rag_is_enabled ss).
    + apply preserves_bind; [apply frames_preserves, frames_search|]. intros context.
      apply frames_preserves, frames_invoke.
    + apply frames_preserves, frames_invoke.
  - intros response.
    apply preserves_bind; [apply Happend|]. intros _.
    apply frames_preserves, frames_display.
Qed.

Lemma preserves_runs P inputs :
  (∀ uploaded prompt, preserves P (script cfg uploaded prompt)) →
  ∀ s, P (session_state s) → P (session_state (runs cfg inputs s)).
Proof.
  intros Hscript. induction inputs as [|[uploaded prompt] inputs IH]; intros s Hs; [done|].
  simpl. apply IH. unfold run. by apply Hscript.
Qed.

(** The session an ingestion attempt leaves: the one it found, or the one
    of a completed ingestion. *)
Lemma ingest_session file s :
  session_state (ingest cfg file s).2 = session_state s ∨
  session_state (ingest cfg file s).2 =
    Session (Some true) (Some (name file))
      (match messages (session_state s) with
       | Some ms => Some (ms ++ [Message "assistant" (learned_notice (name file))])
       | None => None
       end).
Proof.
  rewrite ingest_eq.
  pose proof (frames_clear cfg (show (StatusWrite status_clearing) s)) as Hc.
  destruct (clear_azure_search_index cfg _) as [[[]|e1] s1]; simpl in Hc |- *;
    [| by left | by left].
  pose proof (frames_load file (show (StatusWrite status_analysing) s1)) as Hl.
  destruct (load_and_split_pdf file _) as [[chunks|e2] s2]; simpl in Hl |- *;
    [| left; by rewrite Hl].
  pose proof (frames_upload cfg chunks (show (StatusWrite status_saving)
    (show (StatusWrite (status_split (length chunks))) s2))) as Hup.
  destruct (index_documents_to_azure_search cfg chunks _) as [[[]|e3] s3];
    simpl in Hup |- *.
  - right. by rewrite Hup, Hl, Hc.
  - left. by rewrite Hup, Hl, Hc.
  - left. by rewrite Hup, Hl, Hc.
Qed.

(** X10: the history is only ever appended to: after any sequence of runs
    the messages recorded before are still there, in the same order, at the
    head of the history. *)
Theorem history_only_grows inputs s ms :
  messages (session_state s) = Some ms →
  ∃ more, messages (session_state (runs cfg inputs s)) = Some (ms ++ more).
Proof.
  intros Hms. apply (preserves_runs (extends ms)); [|exists []; by rewrite app_nil_r].
  intros uploaded prompt. apply preserves_script_of.
  - intros m s0 [more Hmore]. unfold messages_append, bind, get_session, gets.
    rewrite Hmore. simpl. exists (more ++ [m]). by rewrite app_assoc.
  - intros s0 [more Hmore]. unfold init_messages, bind, get_session, gets.
    rewrite Hmore. simpl. by exists more.
  - intros file s0 [more Hmore].
    destruct (ingest_session file s0) as [-> | ->]; [by exists more|].
    rewrite Hmore. simpl. eexists. by rewrite <- app_assoc.
Qed.

(** X11: the RAG flag and the recorded name stay together: if a session has
    either both (flag true, a name recorded) or neither, so it has after any
    sequence of runs; the flag is then set exactly when a name is
    recorded. *)
Theorem flag_and_name_go_together inputs s :
  consistent (session_state s) →
  consistent (session_state (runs cfg inputs s)) ∧
  (rag_enabled (session_state (runs cfg inputs s)) = Some true ↔
   is_Some (last_uploaded_file (session_state (runs cfg inputs s)))).
Proof.
  intros Hs.
  assert (consistent (session_state (runs cfg inputs s))) as Hafter.
  { apply (preserves_runs consistent); [|done].
    intros uploaded prompt. apply preserves_script_of.
    - intros m s0 Hc. unfold messages_append, bind, get_session, gets.
      by destruct (messages (session_state s0)).
    - intros s0 Hc. unfold init_messages, bind, get_session, gets.
      by destruct (messages (session_state s0)).
    - intros file s0 Hc. by destruct (ingest_session file s0) as [-> | ->]. }
  split; [done|]. unfold consistent in Hafter.
  destruct (rag_enabled _) as [[]|], (last_uploaded_file _); try done;
    (split; [try done | try done; by intros [? ?]]).
Qed.

Lemma display_all_eq ms (s : state) :
  display_all ms s =
  (Ok tt,
   State (remote s) (uuids_drawn s) (fs s) (session_state s) (calls s)
     (screen s ++ map (λ m, ChatMessage (role m) (content m)) ms)).
Proof.
  revert s. induction ms as [|m ms IH]; intros s; simpl.
  - unfold ret. rewrite app_nil_r. by destruct s.
  - unfold bind, display, modify. rewrite IH. simpl. by rewrite <- app_assoc.
Qed.

(** X12: a run without uploaded file and without text (none, or the empty
    string) ends normally, sends nothing and writes nothing but the history:
    it sets it to the greeting if there was none, and shows each of its
    messages once, in order. *)
Theorem idle_run_shows_the_history prompt s :
  prompt = None ∨ prompt = Some "" →
  let ms := default [greeting] (messages (session_state s)) in
  script cfg None prompt s =
  (Ok tt,
   State (remote s) (uuids_drawn s) (fs s)
     (Session (rag_enabled (session_state s)) (last_uploaded_file (session_state s))
        (Some ms))
     (calls s)
     (screen s ++ map (λ m, ChatMessage (role m) (content m)) ms)).
Proof.
  intros Hprompt ms.
  assert (chat cfg prompt = ret tt) as Hchat by (by destruct Hprompt as [-> | ->]).
  unfold script. rewrite Hchat.
  unfold sidebar, init_messages, show_history, get_session, set_messages.
  unfold bind, ret, gets, modify. subst ms.
  destruct s as [w n files [rag last [ms|]] cs scr]; simpl;
    [by rewrite display_all_eq | done].
Qed.

End RunInvariants.

Lemma history_only_grows_witness :
  ∃ more,
    messages (session_state
      (runs (H0 := PlainText.runtime) default_config
         [(Some other_pdf, None); (None, Some "What is X?")]
         (grounded [Some (Response 500 None); None] [Fails "model overloaded"])))
    = Some ([greeting] ++ more).
Proof.
  apply (history_only_grows (H0 := PlainText.runtime) default_config). reflexivity.
Defined.

Lemma flag_and_name_go_together_witness :
  consistent (session_state
    (runs (H0 := PlainText.runtime) default_config
       [(Some other_pdf, None); (Some other_pdf, None); (None, Some "What is X?")]
       (scripted [Some empty_listing; Some (Response 200 None); None] []))).
Proof.
  apply (flag_and_name_go_together (H0 := PlainText.runtime) default_config).
  exact I.
Defined.

Lemma idle_run_shows_the_history_witness :
  (script (H0 := PlainText.runtime) default_config None (Some "") (scripted [] [])).1 = Ok tt ∧
  messages (session_state
    (script (H0 := PlainText.runtime) default_config None (Some "") (scripted [] [])).2)
    = Some [greeting].
Proof.
  rewrite (idle_run_shows_the_history (H0 := PlainText.runtime) default_config (Some "")
             (scripted [] []) (or_intror eq_refl)).
  split; reflexivity.
Defined.

(** ** Requests and records *)

Section RequestsAndRecords.
Context `{Remote} `{Runtime} (cfg : config).

(** X13: whatever the service answers, a search sends exactly one request:
    a POST to the search endpoint asking for the five best matches of the
    query on the content field, with a count.  It touches nothing else of
    the state, and no [RequestException] leaves it. *)
Theorem search_sends_one_request query s :
  let after := (search_azure_ai cfg query s).2 in
  calls after =
    calls s ++ [Sent (POST (search_url cfg) (api_headers cfg)
                  (JObj [("search", JStr query); ("count", JBool true);
                         ("top", JNum 5); ("searchFields", JStr (CONTENT cfg))]))] ∧
  session_state after = session_state s ∧
  fs after = fs s ∧
  uuids_drawn after = uuids_drawn s ∧
  (∀ e, (search_azure_ai cfg query s).1 = Raise e → is_RequestException e = false).
Proof.
  intros after. subst after. rewrite search_azure_ai_eq. simpl.
  destruct (serve _ _).1 as [r|]; [|done].
  destruct (is_error_status _); [done|].
  destruct (body r) as [results|]; [|done].
  destruct (contents_of cfg results) as [contents|e'] eqn:Hc; simpl.
  - split_and!; try done. intros e. unfold Py.join.
    destruct (Py.strs contents); [done|]. by intros [= <-].
  - split_and!; try done. intros e [= <-]. revert Hc.
    unfold contents_of, Py.get, Py.iter.
    destruct results; try by intros [= <-].
    destruct (default _ _); try by intros [= <-].
    all: apply (comprehension_raise _ (λ e, is_RequestException e = false));
      intros x e''; destruct x; by intros [= <-].
Qed.

(** X14: when the key field is configured under the same name as the
    content field, the chunk overwrites the UUID in every upload record: the
    record has two fields only, and its key is the text of the chunk. *)
Theorem shared_field_name_drops_the_uuid n docs :
  KEY cfg = CONTENT cfg →
  KEY cfg ≠ "@search.action" →
  Forall2 (λ doc rec,
    rec = JObj [("@search.action", JStr "upload"); (KEY cfg, JStr doc)])
    docs (upload_batch cfg n docs) ∧
  map (record_key cfg) (upload_batch cfg n docs) = map (λ doc, Some (JStr doc)) docs.
Proof.
  intros Hsame Hkey.
  assert (∀ id doc, upload_action cfg id doc =
            JObj [("@search.action", JStr "upload"); (KEY cfg, JStr doc)]) as Haction.
  { intros id doc. unfold upload_action, Py.dict. simpl. rewrite <- Hsame.
    rewrite decide_False by done. simpl.
    rewrite decide_False by done. by rewrite decide_True. }
  split.
  - revert n. induction docs as [|doc docs IH]; intros n; [constructor|].
    cbn [upload_batch]. constructor; [apply Haction | apply IH].
  - revert n. induction docs as [|doc docs IH]; intros n; [done|].
    cbn [upload_batch map]. rewrite IH, Haction. simpl.
    rewrite decide_False by done. by rewrite decide_True.
Qed.

End RequestsAndRecords.

Lemma shared_field_name_drops_the_uuid_witness :
  map (record_key one_field_config)
      (upload_batch (H0 := PlainText.runtime) one_field_config 0 ["same"; "same"]) =
  [Some (JStr "same"); Some (JStr "same")].
Proof.
  apply (shared_field_name_drops_the_uuid (H0 := PlainText.runtime) one_field_config
           0 ["same"; "same"]); [reflexivity | done].
Defined.

(** ** Ingestion against the index model *)

Section Replacement.
Context `{Runtime} (cfg : config).
Hypothesis fields_distinct : well_formed cfg.
Hypothesis uuid4_inj : Inj (=) (=) uuid4.

Local Existing Instance IndexService.remote.

Lemma upsert_new k c (recs : list (string * string)) :
  k ∉ map fst recs → IndexService.upsert k c recs = recs ++ [(k, c)].
Proof.
  induction recs as [|r recs IH]; [done|]. simpl. intros Hk.
  apply not_elem_of_cons in Hk as [Hne Hk].
  rewrite decide_False by done. by rewrite IH.
Qed.

Lemma apply_batch_upload n docs (recs : list (string * string)) :
  (∀ i, n ≤ i → uuid4 i ∉ map fst recs) →
  IndexService.apply_batch cfg (upload_batch cfg n docs) recs = Some (recs ++ stored n docs).
Proof.
  revert n recs. induction docs as [|doc docs IH]; intros n recs Hnew.
  - simpl. by rewrite app_nil_r.
  - cbn [upload_batch stored IndexService.apply_batch].
    rewrite upload_action_fields by done.
    destruct fields_distinct as (Hka & Hca & Hkc).
    unfold IndexService.apply_action. simpl.
    rewrite decide_False by done. rewrite decide_True by done.
    rewrite decide_False by done. rewrite decide_False by done.
    rewrite decide_True by done.
    rewrite upsert_new by (apply Hnew; lia).
    rewrite IH; [by rewrite <- app_assoc|].
    intros i Hi. rewrite map_app. apply not_elem_of_app. split; [apply Hnew; lia|].
    simpl. apply not_elem_of_cons. split; [|apply not_elem_of_nil].
    intros Heq. apply uuid4_inj in Heq. lia.
Qed.

Lemma clear_keeps_uuids `{Remote} (s : state) :
  uuids_drawn (clear_azure_search_index cfg s).2 = uuids_drawn s.
Proof.
  rewrite clear_azure_search_index_eq. simpl.
  destruct (serve _ _).1 as [r|]; [|done].
  destruct (is_error_status _); [done|].
  destruct (body r) as [results|]; [|done].
  by destruct (doc_keys_of cfg results) as [[|k keys]|e].
Qed.

(** X15: against the index model of this file, when no request meets a
    fault and the document splits into [chunks], ingesting a new document
    leaves the index holding exactly one record per chunk, in order, each
    under the UUID drawn for it, whatever the index held before; the RAG
    flag is set and the name recorded. *)
Theorem ingestion_replaces_the_index (s : @state (IndexService.remote cfg)) file chunks :
  IndexService.schedule (remote s) = [] →
  is_new_document (session_state s) file = true →
  chunks_of (getvalue file) = Ok chunks →
  IndexService.records (remote (sidebar cfg (Some file) s).2) =
    stored (uuids_drawn s) chunks ∧
  rag_enabled (session_state (sidebar cfg (Some file) s).2) = Some true ∧
  last_uploaded_file (session_state (sidebar cfg (Some file) s).2) = Some (name file).
Proof.
  intros Hquiet Hnew Hchunks.
  destruct fields_distinct as (Hka & Hca & Hkc).
  rewrite sidebar_new_document by done. rewrite ingest_eq.
  destruct (clear_without_faults cfg Hka (show (StatusWrite status_clearing) s) Hquiet)
    as [Htrue Hlater].
  pose proof (clear_true_empties cfg Hka _ Htrue) as Hempty.
  pose proof (clear_keeps_uuids (show (StatusWrite status_clearing) s)) as Huuid.
  destruct (clear_azure_search_index cfg _) as [r1 s1]. simpl in *. subst r1.
  rewrite load_and_split_pdf_eq, Hchunks.
  rewrite index_documents_to_azure_search_eq.
  unfold after_request. cbn [remote uuids_drawn set_fs show set_uuids_drawn
    serve IndexService.remote].
  unfold IndexService.answer_request. rewrite Hlater, Hempty, Huuid.
  unfold upload_request, Py.dict. simpl.
  rewrite decide_True by done.
  rewrite apply_batch_upload by (intros; apply not_elem_of_nil).
  done.
Qed.

End Replacement.

Lemma ingestion_replaces_the_index_witness :
  IndexService.records
    (remote (sidebar (H0 := PlainText.runtime) default_config (Some other_pdf)
               (indexed [("old", "stale text")] [])).2)
  = [("0", "one" +:+ LF +:+ "two")].
Proof.
  refine (proj1 (ingestion_replaces_the_index (H := PlainText.runtime) default_config
            _ pretty_nat_inj (indexed [("old", "stale text")] []) other_pdf
            ["one" +:+ LF +:+ "two"] _ _ _)); try reflexivity.
  by repeat split.
Defined.

(** ** After an attempt that did not complete *)

Section Retry.
Context `{Remote} `{Runtime} (cfg : config).

Lemma ingest_without_rerun file s :
  (ingest cfg file s).1 ≠ Raise RerunException →
  session_state (ingest cfg file s).2 = session_state s.
Proof.
  rewrite ingest_eq.
  pose proof (frames_clear cfg (show (StatusWrite status_clearing) s)) as Hc.
  destruct (clear_azure_search_index cfg _) as [[[]|e1] s1]; simpl in Hc |- *;
    [| done | done].
  pose proof (frames_load file (show (StatusWrite status_analysing) s1)) as Hl.
  destruct (load_and_split_pdf file _) as [[chunks|e2] s2]; simpl in Hl |- *;
    [| intros _; by rewrite Hl].
  pose proof (frames_upload cfg chunks (show (StatusWrite status_saving)
    (show (StatusWrite (status_split (length chunks))) s2))) as Hup.
  destruct (index_documents_to_azure_search cfg chunks _) as [[[]|e3] s3];
    simpl in Hup |- *; [done | |]; intros _; by rewrite Hup, Hl, Hc.
Qed.

(** X16: an attempt that does not end in the rerun of a completed
    ingestion (a clearing or an upload that returned false, an exception
    from extraction) leaves the file as new as it was: the next run with the
    same file starts the ingestion again, with the key listing as the first
    request. *)
Theorem unfinished_ingestion_is_retried file s :
  is_new_document (session_state s) file = true →
  (sidebar cfg (Some file) s).1 ≠ Raise RerunException →
  is_new_document (session_state (sidebar cfg (Some file) s).2) file = true ∧
  ∃ later,
    calls (sidebar cfg (Some file) (sidebar cfg (Some file) s).2).2 =
    calls (sidebar cfg (Some file) s).2 ++ Sent (list_keys_request cfg) :: later.
Proof.
  intros Hnew. rewrite (sidebar_new_document cfg file s Hnew). intros Hno.
  assert (is_new_document (session_state (ingest cfg file s).2) file = true) as Hstill.
  { by rewrite ingest_without_rerun. }
  split; [done|].
  rewrite sidebar_new_document by done. apply ingest_calls.
Qed.

End Retry.

Lemma unfinished_ingestion_is_retried_witness :
  ∃ later,
    calls (sidebar (H0 := PlainText.runtime) default_config (Some other_pdf)
             (sidebar (H0 := PlainText.runtime) default_config (Some other_pdf)
                (scripted [Some (Response 500 None); Some empty_listing] [])).2).2 =
    calls (sidebar (H0 := PlainText.runtime) default_config (Some other_pdf)
             (scripted [Some (Response 500 None); Some empty_listing] [])).2 ++
    Sent (list_keys_request default_config) :: later.
Proof.
  apply (unfinished_ingestion_is_retried (H0 := PlainText.runtime) default_config
           other_pdf (scripted [Some (Response 500 None); Some empty_listing] []));
    [reflexivity | discriminate].
Defined.
